(** * get_club: a roster scraper, verified against its specification

    A shallow embedding of [scrape.py].  The program drives a browser page
    (playwright), parses rendered markup (BeautifulSoup), retries failing
    operations (tenacity) and writes one CSV file per club.

    - Markup is the tree BeautifulSoup builds: [NavigableString] leaves and
      [Tag] nodes; [find], [find_all], [find_next], [text] and [get_text]
      are defined over it in document order.
    - A Python [dict] with string keys is a [gmap string string].
    - Exceptions are values of [exn]; a pure function that may raise returns
      [result]; code that drives the browser lives in the monad [M], which
      threads the browser state, records the browser calls and the sleeps
      it performs, and ends in an [outcome].
    - The string-to-tree parser, [urljoin] and the pycountry table are
      parameters of the development.
    - Log messages are not modelled: they are diagnostics only. *)

From stdpp Require Import gmap strings list fin_maps.
From Stdlib Require Import ZArith Lia Ascii.

Set Warnings "-register-all,-clear-no-such-hyp".

Open Scope string_scope.
Open Scope list_scope.
Open Scope nat_scope.

(** ** Exceptions and results *)

Inductive exn : Type :=
| IndexError
| AttributeError
| KeyError (key : string)
| PlaywrightError (message : string)
| RetryError (last_attempt : exn).

Inductive result (A : Type) : Type :=
| Ok (a : A)
| Raise (e : exn).
Arguments Ok {A} a.
Arguments Raise {A} e.

Definition rbind {A B} (r : result A) (f : A -> result B) : result B :=
  match r with
  | Ok a => f a
  | Raise e => Raise e
  end.

Declare Scope result_scope.
Delimit Scope result_scope with result.
Notation "x <~ r ; k" := (rbind r (fun x => k))
  (at level 20, r at level 100, k at level 200, only parsing) : result_scope.
Notation "' x <~ r ; k" := (rbind r (fun x => k))
  (at level 20, x pattern, r at level 100, k at level 200, only parsing)
  : result_scope.

(** [l[i]]: Python list indexing with a non-negative index. *)
Definition index {A} (l : list A) (i : nat) : result A :=
  match l !! i with
  | Some x => Ok x
  | None => Raise IndexError
  end.

(** ** Python strings *)

Module Str.

(** Whitespace as [str.strip] sees it, on ASCII text. *)
Definition isspace (a : ascii) : bool :=
  let n := nat_of_ascii a in
  ((9 <=? n) && (n <=? 13)) || ((28 <=? n) && (n <=? 32)).

Fixpoint lstrip (s : string) : string :=
  match s with
  | EmptyString => EmptyString
  | String a r => if isspace a then lstrip r else s
  end.

Fixpoint rstrip (s : string) : string :=
  match s with
  | EmptyString => EmptyString
  | String a r =>
      match rstrip r with
      | EmptyString => if isspace a then EmptyString else String a EmptyString
      | r' => String a r'
      end
  end.

Definition strip (s : string) : string := rstrip (lstrip s).

Definition lower_ascii (a : ascii) : ascii :=
  let n := nat_of_ascii a in
  if (65 <=? n) && (n <=? 90) then ascii_of_nat (n + 32) else a.

Fixpoint lower (s : string) : string :=
  match s with
  | EmptyString => EmptyString
  | String a r => String (lower_ascii a) (lower r)
  end.

(** [s.replace(old, new)] for one-character [old] and [new]. *)
Fixpoint replace (old new : ascii) (s : string) : string :=
  match s with
  | EmptyString => EmptyString
  | String a r =>
      String (if Ascii.eqb a old then new else a) (replace old new r)
  end.

Fixpoint join (l : list string) : string :=
  match l with
  | [] => EmptyString
  | s :: r => s +:+ join r
  end.

(** Truthiness of a string: non-empty. *)
Definition truthy (s : string) : bool :=
  match s with
  | EmptyString => false
  | String _ _ => true
  end.

End Str.

(** ** Markup trees *)

Inductive node : Type :=
| NavigableString (s : string)
| Tag (name : string) (classes : list string) (attrs : gmap string string)
      (contents : list node).

Module Soup.

(** The nodes below [n] in document order, [n] itself excluded. *)
Fixpoint descendants (n : node) : list node :=
  match n with
  | NavigableString _ => []
  | Tag _ _ _ cs =>
      (fix walk (l : list node) : list node :=
         match l with
         | [] => []
         | c :: r => c :: descendants c ++ walk r
         end) cs
  end.

(** The text leaves below [n], in document order. *)
Fixpoint strings (n : node) : list string :=
  match n with
  | NavigableString s => [s]
  | Tag _ _ _ cs =>
      (fix walk (l : list node) : list string :=
         match l with
         | [] => []
         | c :: r => strings c ++ walk r
         end) cs
  end.

(** [tag.text] *)
Definition text (n : node) : string := Str.join (strings n).

(** [tag.get_text(strip=True)]: every text leaf stripped, the empty ones
    dropped, the rest joined without separator. *)
Definition get_text_strip (n : node) : string :=
  Str.join (List.filter Str.truthy (map Str.strip (strings n))).

(** [tag.string]: the text of a tag with a single text descendant chain. *)
Fixpoint string_of (n : node) : option string :=
  match n with
  | NavigableString s => Some s
  | Tag _ _ _ [c] => string_of c
  | Tag _ _ _ _ => None
  end.

Definition attrs_of (n : node) : gmap string string :=
  match n with
  | NavigableString _ => ∅
  | Tag _ _ at_ _ => at_
  end.

Definition is_tag (name : string) (n : node) : bool :=
  match n with
  | NavigableString _ => false
  | Tag nm _ _ _ => bool_decide (nm = name)
  end.

Definition has_class (c : string) (n : node) : bool :=
  match n with
  | NavigableString _ => false
  | Tag _ cl _ _ => bool_decide (c ∈ cl)
  end.

(** The filter of [find(name, class_=c)]; [None] is no class filter. *)
Definition matches (name : string) (class_ : option string) (n : node) : bool :=
  is_tag name n &&
  match class_ with
  | None => true
  | Some c => has_class c n
  end.

Definition find_all (name : string) (class_ : option string) (n : node)
  : list node :=
  List.filter (matches name class_) (descendants n).

Definition find (name : string) (class_ : option string) (n : node)
  : option node :=
  head (find_all name class_ n).

(** [soup.select_one('.c')] *)
Definition select_one_class (c : string) (n : node) : option node :=
  head (List.filter (has_class c) (descendants n)).

(** The filter of [find('span', string=s)]. *)
Definition is_label (name s : string) (n : node) : bool :=
  is_tag name n && bool_decide (string_of n = Some s).

Fixpoint drop_until (p : node -> bool) (l : list node) : option (list node) :=
  match l with
  | [] => None
  | x :: r => if p x then Some r else drop_until p r
  end.

(** [soup.find(name, string=s)] followed, when the label exists, by
    [label.find_next(name', class_=c)]: the first match among the nodes
    after the label in document order.  The outer option is the label,
    the inner one the value element. *)
Definition find_label_next (name s name' c : string) (soup : node)
  : option (option node) :=
  match drop_until (is_label name s) (descendants soup) with
  | None => None
  | Some after => Some (head (List.filter (matches name' (Some c)) after))
  end.

End Soup.

(** ** Dictionaries and external libraries *)

Abbreviation dict := (gmap string string).

(** [d.update(other)]: the keys of [other] win. *)
Definition update (d other : dict) : dict := other ∪ d.

(** The library functions the program calls and this development leaves
    abstract: the markup parser ([BeautifulSoup(html, 'html.parser')]),
    [urllib.parse.urljoin], and [pycountry.countries.lookup], which gives
    the [alpha_2] code of a country or fails with [LookupError] ([None]). *)
Record Libs : Type := {
  BeautifulSoup : string -> node;
  urljoin : string -> string -> string;
  countries_lookup : string -> option string
}.

Definition Unknown : string := "Unknown".

(** ** The roster extractor *)

Section Extractor.

Variable lib : Libs.

Definition get_country_code (country_name : string) : string :=
  match countries_lookup lib country_name with
  | Some alpha_2 => Str.lower alpha_2
  | None => "unknown"
  end.

(** [name_element.text.strip() if name_element else "Unknown"] *)
Definition text_or_unknown (element : option node) : string :=
  match element with
  | Some e => Str.strip (Soup.text e)
  | None => Unknown
  end.

(** [element[key] if element and key in element.attrs else fallback] *)
Definition attr_or (element : option node) (key fallback : string) : string :=
  match element with
  | Some e => default fallback (Soup.attrs_of e !! key)
  | None => fallback
  end.

(** The three elements read from the nested name table of a row. *)
Definition name_elements (cols1 : node)
  : result (option node * option node * option node) :=
  match Soup.find "table" (Some "inline-table") cols1 with
  | Some name_container =>
      match Soup.find "td" (Some "hauptlink") name_container with
      | None => Raise AttributeError
      | Some hauptlink =>
          let name_element := Soup.find "a" None hauptlink in
          let trs := Soup.find_all "tr" None name_container in
          let status_element :=
            if 1 <? length trs
            then match trs !! 1 with
                 | Some tr => Soup.find "td" None tr
                 | None => None
                 end
            else None in
          let image_element :=
            match Soup.find "a" None name_container with
            | Some a => Soup.find "img" None a
            | None => None
            end in
          Ok (name_element, status_element, image_element)
      end
  | None => Ok (None, None, None)
  end.

(** [cols[i].text.strip()] *)
Definition cell_text (cols : list node) (i : nat) : result string :=
  (c <~ index cols i; Ok (Str.strip (Soup.text c)))%result.

(** The loop body below the length test, on the cells of a row. *)
Definition extract_player (club_name base_url : string) (cols : list node)
  : result dict :=
  (cols1 <~ index cols 1;
   '(name_element, status_element, image_element) <~ name_elements cols1;
   let name := text_or_unknown name_element in
   let status := text_or_unknown status_element in
   let raw_profile_url := attr_or name_element "href" "" in
   let profile_url :=
     if Str.truthy raw_profile_url && negb (bool_decide (raw_profile_url = "#"))
     then urljoin lib base_url raw_profile_url
     else Unknown in
   let image_url := attr_or image_element "src" Unknown in
   cols5 <~ index cols 5;
   let nation_images := Soup.find_all "img" None cols5 in
   let nations := attr_or (head nation_images) "alt" Unknown in
   let nation_code := get_country_code nations in
   date_of_birth <~ cell_text cols 6;
   appearances <~ cell_text cols 7;
   goals <~ cell_text cols 8;
   assists <~ cell_text cols 9;
   own_goals <~ cell_text cols 10;
   yellow_cards <~ cell_text cols 11;
   second_yellow <~ cell_text cols 12;
   red_cards <~ cell_text cols 13;
   sub_on <~ cell_text cols 14;
   sub_off <~ cell_text cols 15;
   minutes_played <~ cell_text cols 16;
   Ok (list_to_map
         [("name", name); ("status", status); ("profile_url", profile_url);
          ("image_url", image_url); ("nation", nations);
          ("nation_code", nation_code); ("club", club_name);
          ("date_of_birth", date_of_birth); ("appearances", appearances);
          ("goals", goals); ("assists", assists); ("own_goals", own_goals);
          ("yellow_cards", yellow_cards); ("second_yellow", second_yellow);
          ("red_cards", red_cards); ("sub_on", sub_on); ("sub_off", sub_off);
          ("minutes_played", minutes_played)] : dict))%result.

(** One iteration of the loop over the rows: [None] when the row is
    skipped by [continue], otherwise the player or the exception. *)
Definition extract_row (club_name base_url : string) (row : node)
  : option (result dict) :=
  let cols := Soup.find_all "td" None row in
  if length cols <? 12 then None
  else Some (extract_player club_name base_url cols).

(** The loop over the rows, with the list it appends to. *)
Fixpoint extract_rows (club_name base_url : string) (rows : list node)
  (players_list : list dict) : result (list dict) :=
  match rows with
  | [] => Ok players_list
  | row :: rest =>
      match extract_row club_name base_url row with
      | None => extract_rows club_name base_url rest players_list
      | Some (Raise e) => Raise e
      | Some (Ok player) =>
          extract_rows club_name base_url rest (players_list ++ [player])
      end
  end.

Definition club_name_of (soup : node) : string :=
  match Soup.find "h1" None soup with
  | Some h1 => Soup.get_text_strip h1
  | None => Unknown
  end.

(** The rows the loop runs over: empty when the table or its body is
    absent, where the source returns an empty list. *)
Definition roster_rows (soup : node) : list node :=
  match Soup.find "table" (Some "items") soup with
  | None => []
  | Some table =>
      match Soup.find "tbody" None table with
      | None => []
      | Some tbody => Soup.find_all "tr" None tbody
      end
  end.

Definition extract_table_data (html base_url : string) : result (list dict) :=
  let soup := BeautifulSoup lib html in
  let club_name := club_name_of soup in
  match Soup.find "table" (Some "items") soup with
  | None => Ok []
  | Some table =>
      match Soup.find "tbody" None table with
      | None => Ok []
      | Some tbody =>
          extract_rows club_name base_url (Soup.find_all "tr" None tbody) []
      end
  end.

End Extractor.

(** ** Browser, effects and retries *)

(** What the program does to the outside world, in the order it does it:
    [page.goto(url, wait_until="domcontentloaded", timeout=t)],
    [page.content()], and sleeping for a number of seconds. *)
Inductive event : Type :=
| EvGoto (url : string) (timeout : Z)
| EvContent
| EvSleep (seconds : Z).

(** How a computation ends.  [OutOfFuel] is not a Python outcome: it marks
    a run of the model cut off by the bound put on a [while True] loop. *)
Inductive outcome (A : Type) : Type :=
| Returns (a : A)
| Raises (e : exn)
| OutOfFuel.
Arguments Returns {A} a.
Arguments Raises {A} e.
Arguments OutOfFuel {A}.

(** The playwright page: a browser state of type [W] with the two calls
    the program makes.  Either call may fail. *)
Record Page (W : Type) : Type := {
  goto : string -> Z -> W -> W * result unit;
  content : W -> W * result string
}.
Arguments goto {W} _ _ _ _.
Arguments content {W} _ _.

Section Effects.

Context {W : Type}.

Definition M (A : Type) : Type := W -> W * list event * outcome A.

Definition ret {A} (a : A) : M A := fun w => (w, [], Returns a).

Definition raise {A} (e : exn) : M A := fun w => (w, [], Raises e).

Definition bind {A B} (m : M A) (f : A -> M B) : M B := fun w =>
  match m w with
  | (w1, t1, Returns a) =>
      let '(w2, t2, r) := f a w1 in (w2, t1 ++ t2, r)
  | (w1, t1, Raises e) => (w1, t1, Raises e)
  | (w1, t1, OutOfFuel) => (w1, t1, OutOfFuel)
  end.

Definition lift {A} (r : result A) : M A :=
  match r with
  | Ok a => ret a
  | Raise e => raise e
  end.

Definition page_goto (page : Page W) (url : string) (timeout : Z) : M unit :=
  fun w =>
    match goto page url timeout w with
    | (w1, Ok u) => (w1, [EvGoto url timeout], Returns u)
    | (w1, Raise e) => (w1, [EvGoto url timeout], Raises e)
    end.

Definition page_content (page : Page W) : M string := fun w =>
  match content page w with
  | (w1, Ok html) => (w1, [EvContent], Returns html)
  | (w1, Raise e) => (w1, [EvContent], Raises e)
  end.

(** [tenacity.retry(stop=stop_after_attempt(n), wait=wait_fixed(d),
    retry=retry_if_exception_type(Exception))] around [f], seen from an
    attempt after which [remaining] more are allowed: a failed attempt is
    followed by a sleep of [d] seconds and a new attempt, and the failure
    of the last allowed attempt is raised as [RetryError]. *)
Fixpoint attempts {A} (remaining : nat) (wait_fixed : Z) (f : M A) : M A :=
  fun w =>
    match f w with
    | (w1, t1, Returns a) => (w1, t1, Returns a)
    | (w1, t1, OutOfFuel) => (w1, t1, OutOfFuel)
    | (w1, t1, Raises e) =>
        match remaining with
        | 0 => (w1, t1, Raises (RetryError e))
        | S k =>
            let '(w2, t2, r) := attempts k wait_fixed f w1 in
            (w2, t1 ++ EvSleep wait_fixed :: t2, r)
        end
    end.

Definition retry {A} (stop_after_attempt : nat) (wait_fixed : Z) (f : M A)
  : M A :=
  attempts (stop_after_attempt - 1) wait_fixed f.

End Effects.

Declare Scope eff_scope.
Delimit Scope eff_scope with eff.
Notation "'let!' x ':=' m 'in' k" := (bind m (fun x => k))
  (at level 10, x name, m at level 100, k at level 200, only parsing)
  : eff_scope.

(** The number of [page.goto] calls in a trace, and the sleeps in it. *)
Definition is_goto (e : event) : bool :=
  match e with
  | EvGoto _ _ => true
  | _ => false
  end.

Definition fetches (t : list event) : nat := length (List.filter is_goto t).

Fixpoint sleeps (t : list event) : list Z :=
  match t with
  | [] => []
  | EvSleep s :: r => s :: sleeps r
  | _ :: r => sleeps r
  end.

(** ** Page loader, profile extractor, pagination walker, orchestrator *)

Section Scraper.

Context {W : Type}.
Variable lib : Libs.

(** The decorated function's body. *)
Definition load_page_body (page : Page W) (url : string) (timeout : Z)
  : M string :=
  (let! _ := page_goto page url timeout in
   let! html := page_content page in
   ret html)%eff.

Definition load_page (page : Page W) (url : string) (timeout : Z) : M string :=
  retry 3 2 (load_page_body page url timeout).

Definition default_timeout : Z := 60000.

Definition default_profile : dict :=
  list_to_map
    [("jersey_name", Unknown); ("full_name", Unknown);
     ("place_of_birth", Unknown); ("position", Unknown);
     ("height", Unknown); ("jersey_number", Unknown)].

(** [label.find_next('span', class_='info-table__content--bold')
      .get_text(strip=True) if label else "Unknown"]
    for [label = soup.find('span', string=s)]. *)
Definition labelled_value (soup : node) (s : string) : result string :=
  match Soup.find_label_next "span" s "span" "info-table__content--bold" soup with
  | None => Ok Unknown
  | Some None => Raise AttributeError
  | Some (Some value) => Ok (Soup.get_text_strip value)
  end.

Definition parse_profile (html : string) : result dict :=
  let soup := BeautifulSoup lib html in
  let jersey_name :=
    match Soup.find "h1" None soup with
    | Some heading_element =>
        match Soup.find "strong" None heading_element with
        | Some strong => Soup.get_text_strip strong
        | None => Unknown
        end
    | None => Unknown
    end in
  (full_name <~ labelled_value soup "Name in home country:";
   place_of_birth <~ labelled_value soup "Place of birth:";
   position <~ labelled_value soup "Position:";
   height <~ labelled_value soup "Height:";
   let jersey_number :=
     match Soup.select_one_class "data-header__shirt-number" soup with
     | Some jersey_element => Soup.get_text_strip jersey_element
     | None => Unknown
     end in
   Ok (list_to_map
         [("jersey_name", jersey_name); ("full_name", full_name);
          ("place_of_birth", place_of_birth); ("position", position);
          ("height", height); ("jersey_number", jersey_number)] : dict))%result.

Definition scrape_profile_data_body (page : Page W) (profile_url : string)
  : M dict :=
  if bool_decide (profile_url = Unknown) then ret default_profile
  else
    (let! html := load_page page profile_url default_timeout in
     lift (parse_profile html))%eff.

Definition scrape_profile_data (page : Page W) (profile_url : string) : M dict :=
  retry 3 2 (scrape_profile_data_body page profile_url).

(** The [while True] loop of the walker, bounded by [fuel] iterations.
    The list is [pagination_urls] as the loop leaves it; the outcome is
    [Returns] after a [break] and [Raises] when a page load failed. *)
Fixpoint pagination_loop (fuel : nat) (page : Page W)
  (pagination_urls : list string) (current_url : string)
  : W -> W * list event * list string * outcome unit :=
  fun w =>
    match fuel with
    | 0 => (w, [], pagination_urls, OutOfFuel)
    | S fuel' =>
        match load_page page current_url default_timeout w with
        | (w1, t1, Raises e) => (w1, t1, pagination_urls, Raises e)
        | (w1, t1, OutOfFuel) => (w1, t1, pagination_urls, OutOfFuel)
        | (w1, t1, Returns html) =>
            let soup := BeautifulSoup lib html in
            match Soup.find "li" (Some "tm-pagination__list-item--icon-next-page") soup with
            | None => (w1, t1, pagination_urls, Returns tt)
            | Some next_button =>
                match Soup.find "a" (Some "tm-pagination__link") next_button with
                | None => (w1, t1, pagination_urls, Returns tt)
                | Some next_link =>
                    match Soup.attrs_of next_link !! "href" with
                    | None => (w1, t1, pagination_urls, Returns tt)
                    | Some href =>
                        let next_url := urljoin lib current_url href in
                        if bool_decide (next_url ∈ pagination_urls)
                        then (w1, t1, pagination_urls, Returns tt)
                        else
                          let '(w2, t2, urls, r) :=
                            pagination_loop fuel' page
                              (pagination_urls ++ [next_url]) next_url w1 in
                          (w2, t1 ++ t2, urls, r)
                    end
                end
            end
        end
    end.

(** [try: <loop> except Exception: <log>] and [return pagination_urls]. *)
Definition get_pagination_urls (fuel : nat) (page : Page W) (base_url : string)
  : M (list string) :=
  fun w =>
    match pagination_loop fuel page [base_url] base_url w with
    | (w1, t1, urls, Returns _) => (w1, t1, Returns urls)
    | (w1, t1, urls, Raises _) => (w1, t1, Returns urls)
    | (w1, t1, _, OutOfFuel) => (w1, t1, OutOfFuel)
    end.

(** The first loop of the orchestrator, with [all_data] as it leaves it. *)
Fixpoint listing_loop (page : Page W) (urls_to_scrape : list string)
  (all_data : list dict) : W -> W * list event * list dict * outcome unit :=
  fun w =>
    match urls_to_scrape with
    | [] => (w, [], all_data, Returns tt)
    | page_url :: rest =>
        match load_page page page_url default_timeout w with
        | (w1, t1, Raises e) => (w1, t1, all_data, Raises e)
        | (w1, t1, OutOfFuel) => (w1, t1, all_data, OutOfFuel)
        | (w1, t1, Returns html) =>
            match extract_table_data lib html page_url with
            | Raise e => (w1, t1, all_data, Raises e)
            | Ok data =>
                let '(w2, t2, all_data', r) :=
                  listing_loop page rest (all_data ++ data) w1 in
                (w2, t1 ++ t2, all_data', r)
            end
        end
    end.

(** The body of the second loop, for one [player]: the dictionary after
    [player.update(...)]. *)
Definition enrich_player (page : Page W) (player : dict) : M dict :=
  match player !! "profile_url" with
  | None => raise (KeyError "profile_url")
  | Some profile_url =>
      if negb (bool_decide (profile_url = Unknown))
      then
        (let! profile_data := scrape_profile_data page profile_url in
         ret (update player profile_data))%eff
      else ret (update player default_profile)
  end.

(** The second loop.  The dictionaries are updated in place, so the list
    returned is [all_data] with the players before the failing one
    updated and the others as they were. *)
Fixpoint enrich_loop (page : Page W) (players : list dict)
  : W -> W * list event * list dict * outcome unit :=
  fun w =>
    match players with
    | [] => (w, [], [], Returns tt)
    | player :: rest =>
        match enrich_player page player w with
        | (w1, t1, Raises e) => (w1, t1, player :: rest, Raises e)
        | (w1, t1, OutOfFuel) => (w1, t1, player :: rest, OutOfFuel)
        | (w1, t1, Returns player') =>
            let '(w2, t2, rest', r) := enrich_loop page rest w1 in
            (w2, t1 ++ t2, player' :: rest', r)
        end
    end.

(** The [try] block of the orchestrator, with [all_data] as it leaves it. *)
Definition scrape_page_try (fuel : nat) (page : Page W) (url : string)
  (use_pagination : bool) : W -> W * list event * list dict * outcome unit :=
  fun w =>
    let urls :=
      if use_pagination then get_pagination_urls fuel page url
      else ret [url] in
    match urls w with
    | (w1, t1, Raises e) => (w1, t1, [], Raises e)
    | (w1, t1, OutOfFuel) => (w1, t1, [], OutOfFuel)
    | (w1, t1, Returns urls_to_scrape) =>
        match listing_loop page urls_to_scrape [] w1 with
        | (w2, t2, all_data, Returns _) =>
            let '(w3, t3, all_data', r) := enrich_loop page all_data w2 in
            (w3, t1 ++ t2 ++ t3, all_data', r)
        | (w2, t2, all_data, r) => (w2, t1 ++ t2, all_data, r)
        end
    end.

(** [try: ... except Exception as e: <log>] and [return all_data]. *)
Definition scrape_page (fuel : nat) (page : Page W) (url : string)
  (use_pagination : bool) : M (list dict) :=
  fun w =>
    match scrape_page_try fuel page url use_pagination w with
    | (w1, t1, all_data, Returns _) => (w1, t1, Returns all_data)
    | (w1, t1, all_data, Raises _) => (w1, t1, Returns all_data)
    | (w1, t1, _, OutOfFuel) => (w1, t1, OutOfFuel)
    end.

End Scraper.

(** ** Output sink *)

(** The files under the output directory: a path maps to the rows written
    to it, each row the list of its fields.  The CSV quoting of a field is
    left to the [csv] module. *)
Abbreviation files := (gmap string (list (list string))).

Definition header : list string :=
  ["name"; "status"; "profile_url"; "image_url"; "jersey_name"; "jersey_number";
   "nation"; "nation_code"; "club"; "place_of_birth"; "full_name"; "position";
   "height"; "date_of_birth"; "appearances"; "goals"; "assists"; "own_goals";
   "yellow_cards"; "second_yellow"; "red_cards"; "substituted_on";
   "substituted_off"; "minutes_played"].

(** The keys read from a player for a data row, in column order. *)
Definition row_keys : list string :=
  ["name"; "status"; "profile_url"; "image_url"; "jersey_name"; "jersey_number";
   "nation"; "nation_code"; "club"; "place_of_birth"; "full_name"; "position";
   "height"; "date_of_birth"; "appearances"; "goals"; "assists"; "own_goals";
   "yellow_cards"; "second_yellow"; "red_cards"; "sub_on"; "sub_off";
   "minutes_played"].

(** [player[key]] *)
Definition getitem (player : dict) (key : string) : result string :=
  match player !! key with
  | Some v => Ok v
  | None => Raise (KeyError key)
  end.

Fixpoint getitems (player : dict) (keys : list string) : result (list string) :=
  match keys with
  | [] => Ok []
  | key :: rest =>
      (v <~ getitem player key;
       vs <~ getitems player rest;
       Ok (v :: vs))%result
  end.

Definition filepath_of (club_name : string) : string :=
  "dataset/" +:+ Str.lower (Str.replace " " "_" club_name) +:+ "_players_data.csv".

(** The loop over the players: the rows written so far are in the file
    when a missing key raises. *)
Fixpoint write_rows (data : list dict) (written : list (list string))
  : list (list string) * result unit :=
  match data with
  | [] => (written, Ok tt)
  | player :: rest =>
      match getitems player row_keys with
      | Ok row => write_rows rest (written ++ [row])
      | Raise e => (written, Raise e)
      end
  end.

Definition save_to_csv (data : list dict) (club_name : string) (fs : files)
  : files * result unit :=
  let filepath := filepath_of club_name in
  let '(rows, r) := write_rows data [header] in
  (<[filepath := rows]> fs, r).

(** ** Batch runner *)

Definition required_keys : list string :=
  ["jersey_name"; "jersey_number"; "full_name"; "place_of_birth"; "position";
   "height"].

(** [if key not in player: player[key] = "Unknown"] *)
Definition backfill_key (player : dict) (key : string) : dict :=
  match player !! key with
  | Some _ => player
  | None => <[key := Unknown]> player
  end.

Definition backfill (player : dict) : dict :=
  foldl backfill_key player required_keys.

(** [data[0]["club"] if "club" in data[0] else "unknown_club"] *)
Definition club_name_for (data : list dict) : result string :=
  (first <~ index data 0;
   Ok (default "unknown_club" (first !! "club")))%result.

Section Runner.

Context {W : Type}.
Variable lib : Libs.

(** What the runner carries from one step to the next: the browser, the
    files written, and the local variable [data], unbound ([None]) until
    the orchestrator has returned once. *)
Record runner : Type := {
  browser : W;
  written : files;
  data_var : option (list dict)
}.

Definition R (A : Type) : Type := runner -> runner * list event * outcome A.

(** The [try] block of one attempt. *)
Definition attempt_try (fuel : nat) (page : Page W) (url : string)
  (use_pagination : bool) : R unit :=
  fun st =>
    match scrape_page lib fuel page url use_pagination (browser st) with
    | (w1, t1, Raises e) =>
        ({| browser := w1; written := written st; data_var := data_var st |},
         t1, Raises e)
    | (w1, t1, OutOfFuel) =>
        ({| browser := w1; written := written st; data_var := data_var st |},
         t1, OutOfFuel)
    | (w1, t1, Returns data) =>
        match data with
        | [] =>
            ({| browser := w1; written := written st; data_var := Some data |},
             t1, Returns tt)
        | _ :: _ =>
            let data' := map backfill data in
            match club_name_for data' with
            | Raise e =>
                ({| browser := w1; written := written st;
                    data_var := Some data' |}, t1, Raises e)
            | Ok club_name =>
                let '(fs, r) := save_to_csv data' club_name (written st) in
                ({| browser := w1; written := fs; data_var := Some data' |},
                 t1,
                 match r with
                 | Ok u => Returns u
                 | Raise e => Raises e
                 end)
            end
        end
    end.

(** The [else] branch of the handler, on the last attempt: partial data
    is saved, and an exception raised here is not caught. *)
Definition save_partial : R unit :=
  fun st =>
    match data_var st with
    | Some (first :: rest) =>
        let data := first :: rest in
        match club_name_for data with
        | Raise e => (st, [], Raises e)
        | Ok club_name =>
            let '(fs, r) := save_to_csv data club_name (written st) in
            ({| browser := browser st; written := fs; data_var := data_var st |},
             [],
             match r with
             | Ok u => Returns u
             | Raise e => Raises e
             end)
        end
    | _ => (st, [], Returns tt)
    end.

(** [for attempt in range(max_retries)], from [attempt] on, with [todo]
    iterations left. *)
Fixpoint attempt_loop (todo attempt max_retries : nat) (fuel : nat)
  (page : Page W) (url : string) (use_pagination : bool) : R unit :=
  fun st =>
    match todo with
    | 0 => (st, [], Returns tt)
    | S todo' =>
        match attempt_try fuel page url use_pagination st with
        | (st1, t1, Returns _) => (st1, t1, Returns tt)
        | (st1, t1, OutOfFuel) => (st1, t1, OutOfFuel)
        | (st1, t1, Raises _) =>
            if attempt <? max_retries - 1
            then
              let '(st2, t2, r) :=
                attempt_loop todo' (S attempt) max_retries fuel page url
                  use_pagination st1 in
              (st2, t1 ++ EvSleep 2 :: t2, r)
            else
              let '(st2, t2, r) := save_partial st1 in
              match r with
              | Returns _ =>
                  let '(st3, t3, r3) :=
                    attempt_loop todo' (S attempt) max_retries fuel page url
                      use_pagination st2 in
                  (st3, t1 ++ t2 ++ t3, r3)
              | _ => (st2, t1 ++ t2, r)
              end
        end
    end.

(** [for url in urls] *)
Fixpoint url_loop (urls : list string) (max_retries fuel : nat)
  (page : Page W) (use_pagination : bool) : R unit :=
  fun st =>
    match urls with
    | [] => (st, [], Returns tt)
    | url :: rest =>
        match attempt_loop max_retries 0 max_retries fuel page url
                use_pagination st with
        | (st1, t1, Returns _) =>
            let '(st2, t2, r) :=
              url_loop rest max_retries fuel page use_pagination st1 in
            (st2, t1 ++ t2, r)
        | (st1, t1, r) => (st1, t1, r)
        end
    end.

(** The lines of the input file become the URLs: stripped, blank lines
    dropped. *)
Definition read_urls (lines : list string) : list string :=
  map Str.strip (List.filter (fun line => Str.truthy (Str.strip line)) lines).

Definition scrape_multiple_urls (lines : list string) (use_pagination : bool)
  (max_retries : nat) (fuel : nat) (page : Page W) (w : W) (fs : files)
  : runner * list event * outcome unit :=
  url_loop (read_urls lines) max_retries fuel page use_pagination
    {| browser := w; written := fs; data_var := None |}.

End Runner.

(** ** Vocabulary of the specification *)

(** The keys of a record as the roster extractor builds it. *)
Definition base_keys : list string :=
  ["name"; "status"; "profile_url"; "image_url"; "nation"; "nation_code";
   "club"; "date_of_birth"; "appearances"; "goals"; "assists"; "own_goals";
   "yellow_cards"; "second_yellow"; "red_cards"; "sub_on"; "sub_off";
   "minutes_played"].

Definition has_keys (keys : list string) (player : dict) : Prop :=
  Forall (fun key => is_Some (player !! key)) keys.

(** A row the extractor does not skip: at least 12 cells. *)
Definition qualifying (row : node) : bool :=
  12 <=? length (Soup.find_all "td" None row).

(** The records a call hands to its caller: none when it raises. *)
Definition records_of {A} (r : result (list A)) : list A :=
  match r with
  | Ok l => l
  | Raise _ => []
  end.

(** A record as the roster extractor leaves it: its 18 keys, and none of
    the keys the profile page supplies. *)
Definition listing_record (p : dict) : Prop :=
  has_keys base_keys p /\ Forall (fun key => p !! key = None) required_keys.

(** [p'] is [p] after the enrichment loop: untouched, or updated with a
    profile that binds no key outside the six and is the default profile
    when the profile URL of [p] is the sentinel. *)
Definition merged (p p' : dict) : Prop :=
  p' = p \/
  exists d : dict,
    p' = update p d /\
    (forall key, key ∉ required_keys -> d !! key = None) /\
    (p !! "profile_url" = Some Unknown -> d = default_profile).




(** The list a computation returned, empty when it did not return. *)
Definition returned {A} (o : outcome (list A)) : list A :=
  match o with
  | Returns l => l
  | _ => []
  end.

Definition is_returns {A} (o : outcome A) : bool :=
  match o with
  | Returns _ => true
  | _ => false
  end.

(** The next-page URL a listing page gives, if it gives one: the three
    tests of the walker's loop body in one. *)
Definition next_page_url (lib : Libs) (html current_url : string) : option string :=
  match Soup.find "li" (Some "tm-pagination__list-item--icon-next-page")
          (BeautifulSoup lib html) with
  | None => None
  | Some next_button =>
      match Soup.find "a" (Some "tm-pagination__link") next_button with
      | None => None
      | Some next_link =>
          match Soup.attrs_of next_link !! "href" with
          | None => None
          | Some href => Some (urljoin lib current_url href)
          end
      end
  end.


Definition is_upper (a : ascii) : bool :=
  let n := nat_of_ascii a in (65 <=? n) && (n <=? 90).



(** ** Concrete pages used in the examples *)

Module Fixtures.

Definition td (s : string) : node := Tag "td" [] ∅ [NavigableString s].

Definition tr (cells : list node) : node := Tag "tr" [] ∅ cells.

(** A listing page: a heading and the roster table. *)
Definition listing (rows : list node) : node :=
  Tag "[document]" [] ∅
    [Tag "h1" [] ∅ [NavigableString " FC Example "];
     Tag "table" ["items"] ∅ [Tag "tbody" [] ∅ rows]].

(** The name cell of a player row: the nested table with the portrait,
    the linked name and the status line.  It holds three cells of its
    own, which [find_all('td')] on the row counts too. *)
Definition name_cell (name href : string) : node :=
  Tag "td" [] ∅
    [Tag "table" ["inline-table"] ∅
       [Tag "tr" [] ∅
          [Tag "td" [] ∅
             [Tag "a" [] ∅ [Tag "img" [] {[ "src" := "portrait.png" ]} []]];
           Tag "td" ["hauptlink"] ∅
             [Tag "a" [] {[ "href" := href ]} [NavigableString name]]];
        Tag "tr" [] ∅ [Tag "td" [] ∅ [NavigableString "on loan"]]]].

(** The same cell with the [hauptlink] class missing from the name cell. *)
Definition name_cell_plain (name href : string) : node :=
  Tag "td" [] ∅
    [Tag "table" ["inline-table"] ∅
       [Tag "tr" [] ∅
          [Tag "td" [] ∅
             [Tag "a" [] {[ "href" := href ]} [NavigableString name]]]]].

(** A player row: shirt number, name cell, then [stats] further cells,
    all blank. *)
Definition player_row (name href : string) (stats : nat) : node :=
  tr (td "7" :: name_cell name href :: replicate stats (td "")).

Definition plain_row (name href : string) (stats : nat) : node :=
  tr (td "7" :: name_cell_plain name href :: replicate stats (td "")).

(** A pagination control pointing at [href]. *)
Definition next_control (href : string) : node :=
  Tag "li" ["tm-pagination__list-item"; "tm-pagination__list-item--icon-next-page"] ∅
    [Tag "a" ["tm-pagination__link"] {[ "href" := href ]} []].

Definition blank : node := Tag "[document]" [] ∅ [].

(** A site: the markup behind each URL.  The rendered content of a page
    is named by its URL, and the parser looks the markup up. *)
Fixpoint markup_of (site : list (string * node)) (html : string) : node :=
  match site with
  | [] => blank
  | (url, soup) :: rest =>
      if decide (html = url) then soup else markup_of rest html
  end.

Definition site_lib (site : list (string * node)) : Libs :=
  {| BeautifulSoup := markup_of site;
     urljoin := fun _ href => href;
     countries_lookup := fun name =>
       if bool_decide (name = "Germany") then Some "DE" else None |}.

(** A browser over a site: the state is the current URL; navigating to a
    URL outside [reachable] fails. *)
Definition site_page (reachable : list string) : Page string :=
  {| goto := fun url _ w =>
       if bool_decide (url ∈ reachable) then (url, Ok tt)
       else (w, Raise (PlaywrightError "net::ERR_CONNECTION_REFUSED"));
     content := fun w => (w, Ok w) |}.

(** A browser whose first [failures] navigations time out; the state
    counts the navigations. *)
Definition flaky_page (failures : nat) : Page nat :=
  {| goto := fun _ _ n =>
       if n <? failures then (S n, Raise (PlaywrightError "Timeout 60000ms exceeded"))
       else (S n, Ok tt);
     content := fun n => (n, Ok "<html></html>") |}.

(** Three listing pages chained by their next links, and two pages
    whose next links point at each other. *)
Definition p1 : string := "https://example.org/club".
Definition p2 : string := "https://example.org/club?page=2".
Definition p3 : string := "https://example.org/club?page=3".

Definition paged (rows : list node) (next : option string) : node :=
  Tag "[document]" [] ∅
    ([Tag "h1" [] ∅ [NavigableString " FC Example "];
      Tag "table" ["items"] ∅ [Tag "tbody" [] ∅ rows]]
     ++ match next with
        | Some href => [Tag "ul" ["tm-pagination"] ∅ [next_control href]]
        | None => []
        end).

Definition chain_site : list (string * node) :=
  [(p1, paged [] (Some p2)); (p2, paged [] (Some p3)); (p3, paged [] None)].

Definition cycle_site : list (string * node) :=
  [(p1, paged [] (Some p2)); (p2, paged [] (Some p1))].

(** One club page with one player whose profile link is the placeholder,
    and one with a player whose profile page cannot be reached. *)
Definition profile1 : string := "https://example.org/profile/1".

Definition placeholder_site : list (string * node) :=
  [(p1, listing [player_row "A. Player" "#" 12])].

Definition linked_site : list (string * node) :=
  [(p1, listing [player_row "A. Player" profile1 12])].

(** Rows that pass the length test and make the extractor fail. *)
Definition twelve_cell_site : list (string * node) :=
  [(p1, listing [player_row "A. Player" profile1 7])].

Definition plain_name_site : list (string * node) :=
  [(p1, listing [plain_row "A. Player" profile1 14])].

End Fixtures.

(** ** Further vocabulary, for the properties of the code beyond the
    specification *)

(** Every character of [s] passes [p]. *)
Fixpoint all_chars (p : ascii -> bool) (s : string) : bool :=
  match s with
  | EmptyString => true
  | String a r => p a && all_chars p r
  end.

(** The statistics of a record and the cell of the row each one is read
    from. *)
Definition stat_columns : list (string * nat) :=
  [("date_of_birth", 6); ("appearances", 7); ("goals", 8); ("assists", 9);
   ("own_goals", 10); ("yellow_cards", 11); ("second_yellow", 12);
   ("red_cards", 13); ("sub_on", 14); ("sub_off", 15); ("minutes_played", 16)].

(** The results of a list of computations, up to the first that raised. *)
Fixpoint sequence_results {A} (l : list (result A)) : result (list A) :=
  match l with
  | [] => Ok []
  | Raise e :: _ => Raise e
  | Ok a :: rest =>
      match sequence_results rest with
      | Ok l' => Ok (a :: l')
      | Raise e => Raise e
      end
  end.

Definition is_ok {A} (r : result A) : bool :=
  match r with
  | Ok _ => true
  | Raise _ => false
  end.

(** The dictionary a computation gave, empty when it raised. *)
Definition the_dict (r : result dict) : dict :=
  match r with
  | Ok d => d
  | Raise _ => ∅
  end.

(** The record of a row, when the row gave one. *)
Definition is_record (r : option (result dict)) : bool :=
  match r with
  | Some (Ok _) => true
  | _ => false
  end.

Definition the_record (r : option (result dict)) : dict :=
  match r with
  | Some (Ok player) => player
  | _ => ∅
  end.

(** The fields of a profile that are read after a label, with their
    labels, and the class of the element that holds the value. *)
Definition labelled_fields : list (string * string) :=
  [("full_name", "Name in home country:");
   ("place_of_birth", "Place of birth:");
   ("position", "Position:");
   ("height", "Height:")].

Definition value_class : string := "info-table__content--bold".

Section Links.

Context {W : Type}.

(** Some load of [prev] gave a page whose next link resolves to [next]. *)
Definition linked (lib : Libs) (page : Page W) (prev next : string) : Prop :=
  exists w0 w1 t html,
    load_page page prev default_timeout w0 = (w1, t, Returns html) /\
    next_page_url lib html prev = Some next.

(** Each URL of [urls] is the next link of the one before it, starting
    from [prev]. *)
Fixpoint chained (lib : Libs) (page : Page W) (prev : string)
    (urls : list string) : Prop :=
  match urls with
  | [] => True
  | next :: rest => linked lib page prev next /\ chained lib page next rest
  end.

(** Some load of [url] gave a page from which the extractor read [data]. *)
Definition page_records (lib : Libs) (page : Page W) (url : string)
    (data : list dict) : Prop :=
  exists w0 w1 t html,
    load_page page url default_timeout w0 = (w1, t, Returns html) /\
    extract_table_data lib html url = Ok data.

End Links.

(** [p'] is [p] updated with a profile: one that binds no key outside the
    six, and the default one when the profile URL of [p] is the sentinel. *)
Definition updated (p p' : dict) : Prop :=
  exists d : dict,
    p' = update p d /\
    (forall key, key ∉ required_keys -> d !! key = None) /\
    (p !! "profile_url" = Some Unknown -> d = default_profile).




(** ** Profile pages used in the examples *)

Module ProfileFixtures.

(** A profile page with a heading, and the height label followed by its
    value. *)
Definition profile_page : node :=
  Tag "[document]" [] ∅
    [Tag "h1" [] ∅
       [NavigableString "#7 "; Tag "strong" [] ∅ [NavigableString "Player"]];
     Tag "span" [] ∅ [NavigableString "Height:"];
     Tag "span" ["info-table__content--bold"] ∅ [NavigableString " 1,80 m "]].

(** A profile page with the height label and no value element after it. *)
Definition label_only : node :=
  Tag "[document]" [] ∅ [Tag "span" [] ∅ [NavigableString "Height:"]].

Definition profile_site : list (string * node) :=
  [(Fixtures.profile1, profile_page)].

Definition malformed_site : list (string * node) :=
  [(Fixtures.profile1, label_only)].

End ProfileFixtures.

(** * Properties *)

(** ** The roster extractor *)

Ltac rbind_cases H :=
  repeat first
    [ discriminate H
    | match type of H with
      | rbind ?r _ = _ => destruct r eqn:?; cbn [rbind] in H
      | match ?x with pair _ _ => _ end = _ => destruct x; cbn iota beta in H
      end ].

Lemma Ok_inj {A} (a b : A) : Ok a = Ok b -> a = b.
Proof. congruence. Qed.

Section ExtractorFacts.

Variable lib : Libs.

Lemma extract_row_skip club base row :
  length (Soup.find_all "td" None row) < 12 ->
  extract_row lib club base row = None.
Proof.
  intros Hlen. unfold extract_row.
  destruct (Nat.ltb_spec (length (Soup.find_all "td" None row)) 12); [done | lia].
Qed.

Lemma extract_row_unqualifying club base row :
  qualifying row = false -> extract_row lib club base row = None.
Proof.
  unfold qualifying. intros Hq. apply extract_row_skip.
  apply Nat.leb_gt in Hq. lia.
Qed.

Lemma extract_row_qualifying club base row :
  qualifying row = true -> is_Some (extract_row lib club base row).
Proof.
  unfold qualifying, extract_row. intros Hq.
  apply Nat.leb_le in Hq.
  destruct (Nat.ltb_spec (length (Soup.find_all "td" None row)) 12); [lia | eauto].
Qed.

Lemma extract_row_player club base row r :
  extract_row lib club base row = Some r ->
  12 <= length (Soup.find_all "td" None row) /\
  r = extract_player lib club base (Soup.find_all "td" None row).
Proof.
  unfold extract_row.
  destruct (Nat.ltb_spec (length (Soup.find_all "td" None row)) 12) as [Hlt | Hge];
    [discriminate |].
  intros Hr. split; [done | congruence].
Qed.

(** A record the extractor builds has all of its 18 keys, and none of
    the keys the profile page supplies. *)
Lemma extract_player_keys club base cols player :
  extract_player lib club base cols = Ok player ->
  has_keys base_keys player /\
  Forall (fun key => player !! key = None) required_keys.
Proof.
  unfold extract_player. intros H.
  rbind_cases H.
  apply Ok_inj in H. subst player.
  unfold has_keys, base_keys, required_keys. split.
  - repeat (apply Forall_cons; split; [ eexists; vm_compute; reflexivity |]).
    by apply Forall_nil.
  - repeat (apply Forall_cons; split; [ vm_compute; reflexivity |]).
    by apply Forall_nil.
Qed.

Lemma extract_row_keys club base row player :
  extract_row lib club base row = Some (Ok player) ->
  has_keys base_keys player.
Proof.
  intros [_ H]%extract_row_player. symmetry in H.
  by apply extract_player_keys in H as [? _].
Qed.

Lemma extract_row_no_profile_keys club base row player :
  extract_row lib club base row = Some (Ok player) ->
  Forall (fun key => player !! key = None) required_keys.
Proof.
  intros [_ H]%extract_row_player. symmetry in H.
  by apply extract_player_keys in H as [_ ?].
Qed.

(** A row of 12 to 16 cells passes the length test and then fails: the
    loop body reads [cols[16]]. *)
Lemma extract_row_short_raises club base row :
  12 <= length (Soup.find_all "td" None row) < 17 ->
  exists e, extract_row lib club base row = Some (Raise e).
Proof.
  intros [Hlo Hhi]. unfold extract_row.
  destruct (Nat.ltb_spec (length (Soup.find_all "td" None row)) 12); [lia |].
  remember (Soup.find_all "td" None row) as cols eqn:Hc. clear Hc.
  do 12 (destruct cols as [| ? cols]; [cbn [length] in *; lia |]).
  unfold extract_player, cell_text, index. cbn [rbind lookup list_lookup].
  destruct (name_elements _) as [[[? ?] ?] | e]; cbn [rbind]; [| eauto].
  do 5 (destruct cols as [| ? cols]; [cbn [rbind lookup list_lookup]; eauto |]).
  cbn [length] in *. lia.
Qed.

Lemma extract_rows_length club base rows :
  forall acc players,
    extract_rows lib club base rows acc = Ok players ->
    length players = length acc + length (List.filter qualifying rows).
Proof.
  induction rows as [| row rows IH]; intros acc players H; simpl in *.
  - injection H as <-. lia.
  - destruct (qualifying row) eqn:Hq.
    + destruct (extract_row_qualifying club base row Hq) as [r Hr].
      rewrite Hr in H. destruct r as [player | e]; [| discriminate].
      apply IH in H. rewrite H, length_app. simpl. lia.
    + rewrite (extract_row_unqualifying club base row Hq) in H.
      by apply IH in H.
Qed.

Lemma extract_rows_keys club base rows :
  forall acc players,
    Forall (has_keys base_keys) acc ->
    extract_rows lib club base rows acc = Ok players ->
    Forall (has_keys base_keys) players.
Proof.
  induction rows as [| row rows IH]; intros acc players Hacc H; simpl in *.
  - by injection H as <-.
  - destruct (extract_row lib club base row) as [[player | e] |] eqn:Hr;
      [| discriminate | eauto].
    eapply IH; [| exact H].
    apply Forall_app. split; [done |].
    apply Forall_cons. split; [by eapply extract_row_keys | by apply Forall_nil].
Qed.

Lemma extract_rows_no_profile_keys club base rows :
  forall acc players,
    Forall (fun p : dict => Forall (fun key => p !! key = None) required_keys) acc ->
    extract_rows lib club base rows acc = Ok players ->
    Forall (fun p : dict => Forall (fun key => p !! key = None) required_keys) players.
Proof.
  induction rows as [| row rows IH]; intros acc players Hacc H; simpl in *.
  - by injection H as <-.
  - destruct (extract_row lib club base row) as [[player | e] |] eqn:Hr;
      [| discriminate | eauto].
    eapply IH; [| exact H].
    apply Forall_app. split; [done |].
    apply Forall_cons.
    split; [by eapply extract_row_no_profile_keys | by apply Forall_nil].
Qed.

Lemma extract_table_data_rows html base :
  extract_table_data lib html base =
  extract_rows lib (club_name_of (BeautifulSoup lib html)) base
    (roster_rows (BeautifulSoup lib html)) [].
Proof.
  unfold extract_table_data, roster_rows.
  destruct (Soup.find "table" _ _) as [table |]; [| done].
  by destruct (Soup.find "tbody" _ table).
Qed.

Lemma extract_table_data_keys html base players :
  extract_table_data lib html base = Ok players ->
  Forall (has_keys base_keys) players.
Proof.
  rewrite extract_table_data_rows. by apply extract_rows_keys.
Qed.

Lemma extract_table_data_no_profile_keys html base players :
  extract_table_data lib html base = Ok players ->
  Forall (fun p : dict => Forall (fun key => p !! key = None) required_keys) players.
Proof.
  rewrite extract_table_data_rows. by apply extract_rows_no_profile_keys.
Qed.

End ExtractorFacts.

(** C8. A row with fewer than 12 cells yields no record, and the number of
    records the extractor hands back is at most the number of rows of the
    roster table with at least 12 cells. *)
Theorem short_rows_produce_no_record (lib : Libs) :
  (forall club base row,
     length (Soup.find_all "td" None row) < 12 ->
     extract_row lib club base row = None) /\
  (forall html base,
     length (records_of (extract_table_data lib html base))
     <= length (List.filter qualifying (roster_rows (BeautifulSoup lib html)))).
Proof.
  split.
  - apply extract_row_skip.
  - intros html base.
    destruct (extract_table_data lib html base) as [players | e] eqn:H; simpl.
    + rewrite extract_table_data_rows in H.
      apply extract_rows_length in H. simpl in H. lia.
    + lia.
Qed.

Lemma short_rows_produce_no_record_witness :
  extract_row (Fixtures.site_lib []) "FC Example" Fixtures.p1
    (Fixtures.tr [Fixtures.td "Goalkeepers"])
  = None.
Proof.
  apply (proj1 (short_rows_produce_no_record (Fixtures.site_lib []))).
  vm_compute. lia.
Defined.

Section LongRows.

Variable lib : Libs.





End LongRows.



(** ** Retries and the page loader *)

Lemma fetches_app t1 t2 : fetches (t1 ++ t2) = fetches t1 + fetches t2.
Proof. unfold fetches. by rewrite List.filter_app, length_app. Qed.

Lemma sleeps_app t1 t2 : sleeps (t1 ++ t2) = sleeps t1 ++ sleeps t2.
Proof.
  induction t1 as [| ev t1 IH]; [done |].
  destruct ev; simpl; by rewrite ?IH.
Qed.

Lemma fetches_sleep d t : fetches (EvSleep d :: t) = fetches t.
Proof. done. Qed.

Section RetryFacts.

Context {W A : Type}.
Implicit Types (f : @M W A) (w : W).

Lemma attempts_returns k d f w w1 t1 a :
  f w = (w1, t1, Returns a) -> attempts k d f w = (w1, t1, Returns a).
Proof. intros H. destruct k; simpl; by rewrite H. Qed.

Lemma attempts_exhausted d f w w1 t1 e :
  f w = (w1, t1, Raises e) ->
  attempts 0 d f w = (w1, t1, Raises (RetryError e)).
Proof. intros H. simpl. by rewrite H. Qed.

Lemma attempts_again k d f w w1 t1 e w2 t2 r :
  f w = (w1, t1, Raises e) ->
  attempts k d f w1 = (w2, t2, r) ->
  attempts (S k) d f w = (w2, t1 ++ EvSleep d :: t2, r).
Proof. intros H1 H2. simpl. by rewrite H1, H2. Qed.

(** What [attempts] returns, some attempt returned. *)
Lemma attempts_returns_inv k d f :
  forall w w' t a,
    attempts k d f w = (w', t, Returns a) ->
    exists w0 w0' t0, f w0 = (w0', t0, Returns a).
Proof.
  induction k as [| k IH]; intros w w' t a; simpl;
    destruct (f w) as [[w1 t1] [a1 | e |]] eqn:Hf; try discriminate.
  - intros [= <- <- <-]. eauto.
  - intros [= <- <- <-]. eauto.
  - destruct (attempts k d f w1) as [[w2 t2] r] eqn:Hk.
    intros [= <- <- ->]. eauto.
Qed.

(** When every attempt fails with [n] fetches and [m] sleeps of [d]
    seconds, [k + 1] attempts make [(k + 1) * n] fetches, sleep [d]
    seconds between them, and end in [RetryError]. *)
Lemma attempts_all_fail (P : exn -> Prop) (n m : nat) d f :
  (forall w, exists w' t e,
      f w = (w', t, Raises e) /\ P e /\
      fetches t = n /\ sleeps t = replicate m d) ->
  forall k w, exists w' t e,
      attempts k d f w = (w', t, Raises (RetryError e)) /\ P e /\
      fetches t = S k * n /\ sleeps t = replicate (S k * m + k) d.
Proof.
  intros Hf. induction k as [| k IH]; intros w.
  - destruct (Hf w) as (w1 & t1 & e & H & HP & Hn & Hm).
    exists w1, t1, e. rewrite (attempts_exhausted _ _ _ _ _ _ H).
    repeat split; [done | lia |]. rewrite Hm. f_equal. lia.
  - destruct (Hf w) as (w1 & t1 & e1 & H & _ & Hn & Hm).
    destruct (IH w1) as (w2 & t2 & e & H2 & HP & Hn2 & Hm2).
    exists w2, (t1 ++ EvSleep d :: t2), e.
    rewrite (attempts_again _ _ _ _ _ _ _ _ _ _ H H2).
    repeat split; [done | |].
    + rewrite fetches_app, fetches_sleep. lia.
    + rewrite sleeps_app. simpl. rewrite Hm, Hm2.
      change (d :: replicate (S k * m + k) d)
        with (replicate (S (S k * m + k)) d).
      rewrite <- replicate_add. f_equal. lia.
Qed.

End RetryFacts.

Section LoaderFacts.

Context {W : Type}.
Variable page : Page W.

(** One attempt of the loader calls [page.goto] once and never sleeps. *)
Lemma load_page_body_trace url timeout w w' t r :
  load_page_body page url timeout w = (w', t, r) ->
  fetches t = 1 /\ sleeps t = [] /\ r <> OutOfFuel.
Proof.
  unfold load_page_body, bind, page_goto, page_content, ret.
  destruct (goto page url timeout w) as [w1 [[] | e]].
  - destruct (content page w1) as [w2 [html | e]];
      intros [= <- <- <-]; by repeat split.
  - intros [= <- <- <-]. by repeat split.
Qed.

Lemma load_page_all_fail url timeout :
  (forall w, exists w' t e,
      load_page_body page url timeout w = (w', t, Raises e)) ->
  forall w, exists w' t e,
      load_page page url timeout w = (w', t, Raises (RetryError e)) /\
      fetches t = 3 /\ sleeps t = [2; 2]%Z.
Proof.
  intros Hf w.
  destruct (attempts_all_fail (fun _ => True) 1 0 2%Z
              (load_page_body page url timeout)) with (k := 2) (w := w)
    as (w' & t & e & H & _ & Hn & Hm).
  - intros w0. destruct (Hf w0) as (w1 & t1 & e1 & H1).
    destruct (load_page_body_trace _ _ _ _ _ _ H1) as (? & ? & _).
    exists w1, t1, e1. by repeat split.
  - exists w', t, e. by repeat split.
Qed.

Lemma load_page_not_out_of_fuel url timeout w w' t :
  load_page page url timeout w <> (w', t, OutOfFuel).
Proof.
  unfold load_page, retry.
  generalize (3 - 1). intros k. revert w w' t.
  induction k as [| k IH]; intros w w' t; simpl;
    destruct (load_page_body page url timeout w) as [[w1 t1] r] eqn:Hb;
    apply load_page_body_trace in Hb as (_ & _ & Hr);
    destruct r as [a | e |]; try done.
  destruct (attempts k 2%Z _ w1) as [[w2 t2] r] eqn:Hk.
  intros [= <- <- ->]. by eapply IH.
Qed.

End LoaderFacts.

(** C5. The page loader makes at most three attempts, two seconds apart.
    When three attempts in a row fail, the third failure is raised to the
    caller (as tenacity's [RetryError]) after exactly three fetches and two
    sleeps of 2 seconds; when an attempt succeeds, its content is returned
    and no further attempt is made. *)
Theorem load_page_retry_policy {W} (page : Page W) (url : string) (timeout : Z) :
  let attempt := load_page_body page url timeout in
  (forall w0 w1 w2 w3 t1 t2 t3 e1 e2 e3,
      attempt w0 = (w1, t1, Raises e1) ->
      attempt w1 = (w2, t2, Raises e2) ->
      attempt w2 = (w3, t3, Raises e3) ->
      let t := t1 ++ EvSleep 2 :: t2 ++ EvSleep 2 :: t3 in
      load_page page url timeout w0 = (w3, t, Raises (RetryError e3)) /\
      fetches t = 3 /\ sleeps t = [2; 2]%Z) /\
  (forall w0 w1 t1 html,
      attempt w0 = (w1, t1, Returns html) ->
      load_page page url timeout w0 = (w1, t1, Returns html) /\
      fetches t1 = 1 /\ sleeps t1 = []) /\
  (forall w0 w1 w2 t1 t2 e1 html,
      attempt w0 = (w1, t1, Raises e1) ->
      attempt w1 = (w2, t2, Returns html) ->
      let t := t1 ++ EvSleep 2 :: t2 in
      load_page page url timeout w0 = (w2, t, Returns html) /\
      fetches t = 2 /\ sleeps t = [2]%Z) /\
  (forall w0 w1 w2 w3 t1 t2 t3 e1 e2 html,
      attempt w0 = (w1, t1, Raises e1) ->
      attempt w1 = (w2, t2, Raises e2) ->
      attempt w2 = (w3, t3, Returns html) ->
      let t := t1 ++ EvSleep 2 :: t2 ++ EvSleep 2 :: t3 in
      load_page page url timeout w0 = (w3, t, Returns html) /\
      fetches t = 3 /\ sleeps t = [2; 2]%Z).
Proof.
  intros attempt. unfold load_page, retry. change (3 - 1) with 2.
  split; [| split; [| split]].
  - intros w0 w1 w2 w3 t1 t2 t3 e1 e2 e3 H1 H2 H3.
    split.
    + erewrite attempts_again; [done | done |].
      erewrite attempts_again; [done | done |].
      by apply attempts_exhausted.
    + apply load_page_body_trace in H1 as (F1 & S1 & _).
      apply load_page_body_trace in H2 as (F2 & S2 & _).
      apply load_page_body_trace in H3 as (F3 & S3 & _).
      rewrite !fetches_app, !fetches_sleep, !fetches_app, !fetches_sleep.
      rewrite !sleeps_app. simpl. rewrite !sleeps_app. simpl.
      by rewrite F1, F2, F3, S1, S2, S3.
  - intros w0 w1 t1 html H1. split; [by apply attempts_returns |].
    by apply load_page_body_trace in H1 as (F1 & S1 & _).
  - intros w0 w1 w2 t1 t2 e1 html H1 H2. split.
    + erewrite attempts_again; [done | done |]. by apply attempts_returns.
    + apply load_page_body_trace in H1 as (F1 & S1 & _).
      apply load_page_body_trace in H2 as (F2 & S2 & _).
      rewrite !fetches_app, !fetches_sleep, !sleeps_app. simpl.
      by rewrite F1, F2, S1, S2.
  - intros w0 w1 w2 w3 t1 t2 t3 e1 e2 html H1 H2 H3.
    split.
    + erewrite attempts_again; [done | done |].
      erewrite attempts_again; [done | done |].
      by apply attempts_returns.
    + apply load_page_body_trace in H1 as (F1 & S1 & _).
      apply load_page_body_trace in H2 as (F2 & S2 & _).
      apply load_page_body_trace in H3 as (F3 & S3 & _).
      rewrite !fetches_app, !fetches_sleep, !fetches_app, !fetches_sleep.
      rewrite !sleeps_app. simpl. rewrite !sleeps_app. simpl.
      by rewrite F1, F2, F3, S1, S2, S3.
Qed.

(** The policy on a browser whose first navigations time out: three
    failures exhaust the loader; with none, one or two failures the
    content comes back after one, two or three fetches. *)
Lemma load_page_retry_policy_witness :
  let url := "https://example.org/club" in
  let timeout_error := PlaywrightError "Timeout 60000ms exceeded" in
  (load_page (Fixtures.flaky_page 3) url 60000 0
   = (3, [EvGoto url 60000] ++ EvSleep 2 :: [EvGoto url 60000] ++ EvSleep 2 ::
           [EvGoto url 60000],
      Raises (RetryError timeout_error)) /\
   fetches ([EvGoto url 60000] ++ EvSleep 2 :: [EvGoto url 60000] ++ EvSleep 2 ::
              [EvGoto url 60000]) = 3 /\
   sleeps ([EvGoto url 60000] ++ EvSleep 2 :: [EvGoto url 60000] ++ EvSleep 2 ::
             [EvGoto url 60000]) = [2; 2]%Z) /\
  (load_page (Fixtures.flaky_page 0) url 60000 0
   = (1, [EvGoto url 60000; EvContent], Returns "<html></html>") /\
   fetches [EvGoto url 60000; EvContent] = 1 /\
   sleeps [EvGoto url 60000; EvContent] = []) /\
  (load_page (Fixtures.flaky_page 1) url 60000 0
   = (2, [EvGoto url 60000] ++ EvSleep 2 :: [EvGoto url 60000; EvContent],
      Returns "<html></html>") /\
   fetches ([EvGoto url 60000] ++ EvSleep 2 :: [EvGoto url 60000; EvContent]) = 2 /\
   sleeps ([EvGoto url 60000] ++ EvSleep 2 :: [EvGoto url 60000; EvContent])
   = [2]%Z).
Proof.
  intros url timeout_error.
  split; [| split].
  - apply (proj1 (load_page_retry_policy (Fixtures.flaky_page 3) url 60000)
             0 1 2 3 _ _ _ timeout_error timeout_error timeout_error);
      reflexivity.
  - apply (proj1 (proj2 (load_page_retry_policy (Fixtures.flaky_page 0) url 60000))
             0 1 _ _).
    reflexivity.
  - apply (proj1 (proj2 (proj2
             (load_page_retry_policy (Fixtures.flaky_page 1) url 60000)))
             0 1 2 _ _ timeout_error _); reflexivity.
Defined.

Section ProfileFacts.

Context {W : Type}.
Variable lib : Libs.
Variable page : Page W.


Lemma scrape_profile_data_body_fails profile_url w w' t e :
  profile_url <> Unknown ->
  load_page page profile_url default_timeout w = (w', t, Raises e) ->
  scrape_profile_data_body lib page profile_url w = (w', t, Raises e).
Proof.
  intros Hne H. unfold scrape_profile_data_body, bind.
  rewrite bool_decide_eq_false_2 by done. by rewrite H.
Qed.

Lemma parse_profile_keys html d :
  parse_profile lib html = Ok d ->
  forall key, key ∉ required_keys -> d !! key = None.
Proof.
  unfold parse_profile. intros H.
  rbind_cases H. apply Ok_inj in H. subst d.
  intros key Hkey. apply not_elem_of_list_to_map_1.
  intros Hin. apply Hkey. unfold required_keys.
  simpl in Hin. rewrite !elem_of_cons in Hin. rewrite !elem_of_cons. tauto.
Qed.

Lemma default_profile_keys key :
  key ∉ required_keys -> default_profile !! key = None.
Proof.
  intros Hkey. apply not_elem_of_list_to_map_1.
  intros Hin. apply Hkey. unfold required_keys.
  simpl in Hin. rewrite !elem_of_cons in Hin. rewrite !elem_of_cons. tauto.
Qed.


(** A profile, wherever it comes from, binds no key outside the six. *)
Lemma scrape_profile_data_keys profile_url w w' t d :
  scrape_profile_data lib page profile_url w = (w', t, Returns d) ->
  forall key, key ∉ required_keys -> d !! key = None.
Proof.
  intros H. apply attempts_returns_inv in H as (w0 & w0' & t0 & H).
  unfold scrape_profile_data_body in H.
  destruct (bool_decide (profile_url = Unknown)).
  - injection H as _ _ <-. apply default_profile_keys.
  - unfold bind in H.
    destruct (load_page page profile_url default_timeout w0)
      as [[w1 t1] [html | e |]]; try discriminate.
    destruct (parse_profile lib html) as [d' | e] eqn:Hp; simpl in H;
      [| discriminate].
    injection H as _ _ <-. by eapply parse_profile_keys.
Qed.

End ProfileFacts.

(** C10. For a profile URL other than the sentinel whose page never loads,
    the profile scraper fetches nine times before the failure leaves it:
    it makes three attempts of its own, each of which calls the page
    loader, which fetches three times.  Between the fetches it sleeps
    2 seconds, eight times in all. *)
Theorem profile_fetch_attempted_nine_times {W} (lib : Libs) (page : Page W)
    (profile_url : string) :
  profile_url <> Unknown ->
  (forall w, exists w' t e,
      load_page_body page profile_url default_timeout w = (w', t, Raises e)) ->
  forall w, exists w' t e,
      scrape_profile_data lib page profile_url w
      = (w', t, Raises (RetryError (RetryError e))) /\
      fetches t = 9 /\ sleeps t = replicate 8 2%Z.
Proof.
  intros Hne Hfail w.
  destruct (attempts_all_fail (fun e => exists e0, e = RetryError e0) 3 2 2%Z
              (scrape_profile_data_body lib page profile_url))
    with (k := 2) (w := w) as (w' & t & e & H & [e0 ->] & Hn & Hm).
  - intros w0.
    destruct (load_page_all_fail page profile_url default_timeout Hfail w0)
      as (w1 & t1 & e1 & H1 & Hn1 & Hm1).
    exists w1, t1, (RetryError e1).
    split; [by apply scrape_profile_data_body_fails |].
    split; [by eexists |]. by split.
  - exists w', t, e0. by repeat split.
Qed.

Lemma profile_fetch_attempted_nine_times_witness :
  exists w' t e,
    scrape_profile_data (Fixtures.site_lib []) (Fixtures.site_page [])
      "https://example.org/profile/1" "about:blank"
    = (w', t, Raises (RetryError (RetryError e))) /\
    fetches t = 9 /\ sleeps t = replicate 8 2%Z.
Proof.
  apply (profile_fetch_attempted_nine_times (Fixtures.site_lib [])
           (Fixtures.site_page []) "https://example.org/profile/1").
  - discriminate.
  - intros w. eexists _, _, _. reflexivity.
Defined.

(** ** The pagination walker *)

Section WalkerFacts.

Context {W : Type}.
Variable lib : Libs.
Variable page : Page W.

(** The loop body, with its three tests read through [next_page_url]. *)
Lemma pagination_loop_step fuel urls current w :
  pagination_loop lib (S fuel) page urls current w =
  match load_page page current default_timeout w with
  | (w1, t1, Raises e) => (w1, t1, urls, Raises e)
  | (w1, t1, OutOfFuel) => (w1, t1, urls, OutOfFuel)
  | (w1, t1, Returns html) =>
      match next_page_url lib html current with
      | None => (w1, t1, urls, Returns tt)
      | Some next_url =>
          if bool_decide (next_url ∈ urls) then (w1, t1, urls, Returns tt)
          else
            let '(w2, t2, urls', r) :=
              pagination_loop lib fuel page (urls ++ [next_url]) next_url w1 in
            (w2, t1 ++ t2, urls', r)
      end
  end.
Proof.
  simpl.
  destruct (load_page page current default_timeout w) as [[w1 t1] [html | e |]];
    try done.
  unfold next_page_url.
  destruct (Soup.find "li" _ _) as [next_button |]; [| done].
  destruct (Soup.find "a" _ next_button) as [next_link |]; [| done].
  by destruct (Soup.attrs_of next_link !! "href").
Qed.



End WalkerFacts.


(** The walker on a chain of three pages, on two pages that point at each
    other, and on a chain whose second page cannot be loaded. *)
Example walker_three_page_chain :
  (get_pagination_urls (Fixtures.site_lib Fixtures.chain_site) 10
     (Fixtures.site_page [Fixtures.p1; Fixtures.p2; Fixtures.p3])
     Fixtures.p1 "about:blank").2
  = Returns [Fixtures.p1; Fixtures.p2; Fixtures.p3].
Proof. vm_compute. reflexivity. Qed.

Example walker_stops_at_cycle :
  (get_pagination_urls (Fixtures.site_lib Fixtures.cycle_site) 10
     (Fixtures.site_page [Fixtures.p1; Fixtures.p2])
     Fixtures.p1 "about:blank").2
  = Returns [Fixtures.p1; Fixtures.p2].
Proof. vm_compute. reflexivity. Qed.

Example walker_survives_fetch_error :
  (get_pagination_urls (Fixtures.site_lib Fixtures.chain_site) 10
     (Fixtures.site_page [Fixtures.p1])
     Fixtures.p1 "about:blank").2
  = Returns [Fixtures.p1; Fixtures.p2].
Proof. vm_compute. reflexivity. Qed.


(** ** The orchestrator *)


Lemma attempts_never_out_of_fuel {W A} (d : Z) (f : @M W A) :
  (forall w w' t, f w <> (w', t, OutOfFuel)) ->
  forall k w w' t, attempts k d f w <> (w', t, OutOfFuel).
Proof.
  intros Hf. induction k as [| k IH]; intros w w' t; simpl;
    destruct (f w) as [[w1 t1] r] eqn:Hb;
    destruct r as [a | e |]; try done; try (by apply Hf in Hb).
  destruct (attempts k d f w1) as [[w2 t2] r] eqn:Hk.
  intros [= <- <- ->]. by eapply IH.
Qed.



Section OrchestratorFacts.

Context {W : Type}.
Variable lib : Libs.
Variable page : Page W.

Lemma scrape_profile_data_not_out_of_fuel profile_url w w' t :
  scrape_profile_data lib page profile_url w <> (w', t, OutOfFuel).
Proof.
  apply attempts_never_out_of_fuel. clear. intros w w' t.
  unfold scrape_profile_data_body.
  destruct (bool_decide (profile_url = Unknown)); [done |].
  unfold bind.
  destruct (load_page page profile_url default_timeout w)
    as [[w1 t1] [html | e |]] eqn:Hload; [| done |].
  - by destruct (parse_profile lib html).
  - by apply load_page_not_out_of_fuel in Hload.
Qed.

Lemma enrich_player_inv player w w' t r :
  enrich_player lib page player w = (w', t, r) ->
  match r with
  | Returns player' => merged player player'
  | Raises _ => True
  | OutOfFuel => False
  end.
Proof.
  unfold enrich_player.
  destruct (player !! "profile_url") as [profile_url |] eqn:Hurl;
    [| by intros [= <- <- <-]].
  case_bool_decide as Hunknown; simpl.
  - intros [= <- <- <-]. right. exists default_profile.
    split; [done |]. split; [apply default_profile_keys | done].
  - unfold bind.
    destruct (scrape_profile_data lib page profile_url w)
      as [[w1 t1] [d | e |]] eqn:Hscrape.
    + intros [= <- <- <-]. right. exists d. split; [done |].
      split; [by eapply scrape_profile_data_keys |].
      intros Hu. congruence.
    + by intros [= <- <- <-].
    + by apply scrape_profile_data_not_out_of_fuel in Hscrape.
Qed.

Lemma enrich_loop_inv players :
  forall w w' t players' r,
    enrich_loop lib page players w = (w', t, players', r) ->
    r <> OutOfFuel /\ Forall2 merged players players'.
Proof.
  induction players as [| player rest IH]; intros w w' t players' r; simpl.
  - intros [= <- <- <- <-]. split; [done | constructor].
  - destruct (enrich_player lib page player w) as [[w1 t1] r1] eqn:Hp.
    apply enrich_player_inv in Hp.
    destruct r1 as [player' | e |]; [| | done].
    + destruct (enrich_loop lib page rest w1) as [[[w2 t2] rest'] r2] eqn:Hl.
      intros [= <- <- <- <-]. apply IH in Hl as [Hr Hrest].
      split; [done |]. by constructor.
    + intros [= <- <- <- <-]. split; [done |].
      apply Forall2_same_length_lookup. split; [done |].
      intros i x y Hx Hy. left. congruence.
Qed.

Lemma listing_loop_inv urls :
  forall all_data w w' t all_data' r,
    listing_loop lib page urls all_data w = (w', t, all_data', r) ->
    r <> OutOfFuel /\
    (Forall listing_record all_data -> Forall listing_record all_data') /\
    exists more, all_data' = all_data ++ more.
Proof.
  induction urls as [| page_url rest IH];
    intros all_data w w' t all_data' r; simpl.
  - intros [= <- <- <- <-]. repeat split; [done | done |].
    exists []. by rewrite app_nil_r.
  - destruct (load_page page page_url default_timeout w)
      as [[w1 t1] [html | e |]] eqn:Hload.
    + destruct (extract_table_data lib html page_url) as [data | e] eqn:Hdata.
      * destruct (listing_loop lib page rest (all_data ++ data) w1)
          as [[[w2 t2] all_data2] r2] eqn:Hl.
        intros [= <- <- <- <-].
        apply IH in Hl as (Hr & Hrec & more & ->).
        repeat split; [done | |].
        -- intros Hall. apply Hrec. apply Forall_app. split; [done |].
           apply Forall_forall. intros p Hp. split.
           ++ apply extract_table_data_keys in Hdata.
              by eapply Forall_forall in Hdata.
           ++ apply extract_table_data_no_profile_keys in Hdata.
              by eapply Forall_forall in Hdata.
        -- exists (data ++ more). by rewrite app_assoc.
      * intros [= <- <- <- <-]. repeat split; [done | done |].
        exists []. by rewrite app_nil_r.
    + intros [= <- <- <- <-]. repeat split; [done | done |].
      exists []. by rewrite app_nil_r.
    + by apply load_page_not_out_of_fuel in Hload.
Qed.



Lemma scrape_page_never_raises fuel url use_pagination w w' t e :
  scrape_page lib fuel page url use_pagination w <> (w', t, Raises e).
Proof.
  unfold scrape_page.
  destruct (scrape_page_try lib fuel page url use_pagination w)
    as [[[w1 t1] all_data] r].
  by destruct r.
Qed.

End OrchestratorFacts.

(** ** Backfill and the output sink *)

Lemma backfill_key_preserves (p : dict) key k v :
  p !! k = Some v -> backfill_key p key !! k = Some v.
Proof.
  intros Hk. unfold backfill_key.
  destruct (p !! key) eqn:Hkey; [done |].
  rewrite lookup_insert_ne; [done | congruence].
Qed.

Lemma backfill_key_other (p : dict) key k :
  k <> key -> backfill_key p key !! k = p !! k.
Proof.
  intros Hne. unfold backfill_key.
  destruct (p !! key); [done |]. by rewrite lookup_insert_ne.
Qed.

Lemma backfill_key_fills (p : dict) key :
  backfill_key p key !! key = Some (default Unknown (p !! key)).
Proof.
  unfold backfill_key. destruct (p !! key) eqn:Hkey; simpl; [done |].
  apply lookup_insert_eq.
Qed.

Lemma foldl_backfill_preserves keys :
  forall (p : dict) k v,
    p !! k = Some v -> foldl backfill_key p keys !! k = Some v.
Proof.
  induction keys as [| key keys IH]; intros p k v Hk; simpl; [done |].
  by apply IH, backfill_key_preserves.
Qed.

Lemma foldl_backfill_fills keys :
  forall (p : dict) key,
    key ∈ keys ->
    foldl backfill_key p keys !! key = Some (default Unknown (p !! key)).
Proof.
  induction keys as [| k0 keys IH]; intros p key Hin; simpl.
  - by apply elem_of_nil in Hin.
  - destruct (decide (key = k0)) as [-> | Hne].
    + apply foldl_backfill_preserves, backfill_key_fills.
    + apply elem_of_cons in Hin as [-> | Hin]; [done |].
      rewrite IH by done. by rewrite backfill_key_other.
Qed.

Lemma backfill_preserves (p : dict) k v :
  p !! k = Some v -> backfill p !! k = Some v.
Proof. apply foldl_backfill_preserves. Qed.

Lemma backfill_fills (p : dict) key :
  key ∈ required_keys ->
  backfill p !! key = Some (default Unknown (p !! key)).
Proof. apply foldl_backfill_fills. Qed.






(** ** Records at write time *)

Lemma returned_eta {W A} (run : W * list event * outcome (list A)) :
  is_returns run.2 = true -> run = (run.1.1, run.1.2, Returns (returned run.2)).
Proof. destruct run as [[w t] [l | e |]]; done. Qed.

Section WriteTimeFacts.

Context {W : Type}.
Variable lib : Libs.
Variable page : Page W.



End WriteTimeFacts.




(** ** Failures inside the orchestrator *)

(** C2, as the code has it.  A failure inside the orchestrator's [try]
    block is caught there: the orchestrator never raises to its caller,
    and it returns the records accumulated when the failure occurred.
    When a listing page fails to load, these are the records of the pages
    before it; when a profile fails to load, these are all the listing
    records, the ones before the failing player merged with their
    profiles. *)
Theorem scrape_page_returns_accumulated {W} (lib : Libs) (page : Page W)
    (fuel : nat) (url : string) (use_pagination : bool) (w : W) :
  (forall w' t e,
      scrape_page lib fuel page url use_pagination w <> (w', t, Raises e)) /\
  (forall w1 t1 urls_to_scrape,
      (if use_pagination then get_pagination_urls lib fuel page url
       else ret [url]) w = (w1, t1, Returns urls_to_scrape) ->
      forall w2 t2 listed r2,
        listing_loop lib page urls_to_scrape [] w1 = (w2, t2, listed, r2) ->
        match r2 with
        | Raises _ =>
            scrape_page lib fuel page url use_pagination w
            = (w2, t1 ++ t2, Returns listed)
        | Returns _ =>
            forall w3 t3 data r3,
              enrich_loop lib page listed w2 = (w3, t3, data, r3) ->
              scrape_page lib fuel page url use_pagination w
              = (w3, t1 ++ t2 ++ t3, Returns data) /\
              Forall2 merged listed data
        | OutOfFuel => False
        end).
Proof.
  split; [intros w' t e; apply scrape_page_never_raises |].
  intros w1 t1 urls Hurls w2 t2 listed r2 Hlist.
  unfold scrape_page, scrape_page_try. rewrite Hurls, Hlist.
  destruct r2 as [[] | e |]; [| done |].
  - intros w3 t3 data r3 Henrich. rewrite Henrich.
    apply enrich_loop_inv in Henrich as [Hr Hmerged].
    by destruct r3.
  - by apply listing_loop_inv in Hlist as [Hr _].
Qed.

Lemma scrape_page_returns_accumulated_witness :
  let url := Fixtures.p1 in
  let refused := PlaywrightError "net::ERR_CONNECTION_REFUSED" in
  scrape_page (Fixtures.site_lib Fixtures.linked_site) 0
    (Fixtures.site_page []) url false "about:blank"
  = ("about:blank",
     [] ++ [EvGoto url 60000; EvSleep 2; EvGoto url 60000; EvSleep 2;
            EvGoto url 60000],
     Returns []).
Proof.
  intros url refused.
  apply (proj2 (scrape_page_returns_accumulated
                  (Fixtures.site_lib Fixtures.linked_site)
                  (Fixtures.site_page []) 0 url false "about:blank")
           "about:blank" [] [url] eq_refl
           "about:blank" _ [] (Raises (RetryError refused))).
  vm_compute. reflexivity.
Defined.

(** The claim as the specification words it fails when a profile page
    cannot be reached.  The listing page loads and yields one player; the
    nine fetches of the player's profile all fail and the profile scraper
    raises; the orchestrator still returns, with the player's record. *)
Lemma scrape_page_swallows_fetch_failure :
  let lib := Fixtures.site_lib Fixtures.linked_site in
  let page := Fixtures.site_page [Fixtures.p1] in
  let profile := scrape_profile_data lib page Fixtures.profile1 Fixtures.p1 in
  let run := scrape_page lib 0 page Fixtures.p1 false "about:blank" in
  (profile.2
   = Raises (RetryError (RetryError
               (PlaywrightError "net::ERR_CONNECTION_REFUSED"))) /\
   fetches profile.1.2 = 9) /\
  (is_returns run.2 = true /\
   length (returned run.2) = 1 /\
   (returned run.2 !! 0) ≫= (.!! "name") = Some "A. Player" /\
   (returned run.2 !! 0) ≫= (.!! "profile_url") = Some Fixtures.profile1 /\
   (returned run.2 !! 0) ≫= (.!! "full_name") = None /\
   fetches run.1.2 = 10).
Proof. vm_compute. repeat split. Qed.

(** ** Sentinel profile URLs, end to end *)



(** The end-to-end scenario of the specification: a listing page with two
    qualifying rows, the first with a profile link and the second with the
    placeholder, and no next-page control.  One file with two records is
    written; the second record's profile URL and its six profile fields
    are "Unknown", and the only profile fetched is the first player's. *)
Example two_rows_one_placeholder :
  let site :=
    [(Fixtures.p1,
      Fixtures.listing [Fixtures.player_row "A. Player" Fixtures.profile1 12;
                        Fixtures.player_row "B. Player" "#" 12]);
     (Fixtures.profile1, Fixtures.blank)] in
  let run :=
    scrape_multiple_urls (Fixtures.site_lib site) [Fixtures.p1] true 3 5
      (Fixtures.site_page [Fixtures.p1; Fixtures.profile1]) "about:blank" ∅ in
  run.2 = Returns tt /\
  fetches run.1.2 = 3 /\
  exists first second,
    written run.1.1 !! "dataset/fc_example_players_data.csv"
    = Some [header; first; second] /\
    take 6 second
    = ["B. Player"; "on loan"; "Unknown"; "portrait.png"; "Unknown"; "Unknown"] /\
    take 4 (drop 9 second) = ["Unknown"; "Unknown"; "Unknown"; "Unknown"].
Proof. vm_compute. repeat split. eexists _, _. repeat split. Qed.

(** ** Rows that make the extractor fail *)

(** C1 on the code: the length test admits rows of 12 to 16 cells, and
    the loop body then reads [cols[12]] to [cols[16]].  A player row of 12
    cells makes the extractor raise [IndexError]: no record comes back for
    it, nor for any other row of the page. *)
Theorem twelve_cell_row_raises :
  map (fun row => length (Soup.find_all "td" None row))
      (roster_rows (Fixtures.markup_of Fixtures.twelve_cell_site Fixtures.p1))
  = [12; 2; 1] /\
  extract_table_data (Fixtures.site_lib Fixtures.twelve_cell_site)
    Fixtures.p1 Fixtures.p1
  = Raise IndexError.
Proof. split; vm_compute; reflexivity. Qed.

(** C3 on the code: a nested name table without a cell of class
    [hauptlink] makes [name_container.find(...).find('a')] fail on [None];
    the extractor raises [AttributeError] for a row of 17 cells. *)
Theorem missing_hauptlink_raises :
  map (fun row => length (Soup.find_all "td" None row))
      (roster_rows (Fixtures.markup_of Fixtures.plain_name_site Fixtures.p1))
  = [17; 1] /\
  extract_table_data (Fixtures.site_lib Fixtures.plain_name_site)
    Fixtures.p1 Fixtures.p1
  = Raise AttributeError.
Proof. split; vm_compute; reflexivity. Qed.

(** * Properties of the code beyond the specification *)

(** ** What a computation gave *)

Lemma records_of_eta {A} (r : result (list A)) :
  is_ok r = true -> r = Ok (records_of r).
Proof. by destruct r. Qed.

Lemma the_dict_eta (r : result dict) : is_ok r = true -> r = Ok (the_dict r).
Proof. by destruct r. Qed.

Lemma is_record_eta (r : option (result dict)) :
  is_record r = true -> r = Some (Ok (the_record r)).
Proof. by destruct r as [[] |]. Qed.

(** ** The roster extractor, field by field *)

Lemma listing_literal (v1 v2 v3 v4 v5 v6 v7 v8 v9 v10 v11 v12 v13 v14 v15 v16 v17 v18 : string) :
  let d : dict :=
    list_to_map
      [("name", v1); ("status", v2); ("profile_url", v3); ("image_url", v4);
       ("nation", v5); ("nation_code", v6); ("club", v7);
       ("date_of_birth", v8); ("appearances", v9); ("goals", v10);
       ("assists", v11); ("own_goals", v12); ("yellow_cards", v13);
       ("second_yellow", v14); ("red_cards", v15); ("sub_on", v16);
       ("sub_off", v17); ("minutes_played", v18)] in
  d !! "name" = Some v1 /\ d !! "status" = Some v2 /\
  d !! "profile_url" = Some v3 /\ d !! "image_url" = Some v4 /\
  d !! "nation" = Some v5 /\ d !! "nation_code" = Some v6 /\
  d !! "club" = Some v7 /\
  d !! "date_of_birth" = Some v8 /\ d !! "appearances" = Some v9 /\
  d !! "goals" = Some v10 /\ d !! "assists" = Some v11 /\
  d !! "own_goals" = Some v12 /\ d !! "yellow_cards" = Some v13 /\
  d !! "second_yellow" = Some v14 /\ d !! "red_cards" = Some v15 /\
  d !! "sub_on" = Some v16 /\ d !! "sub_off" = Some v17 /\
  d !! "minutes_played" = Some v18.
Proof. vm_compute. repeat split. Qed.

Lemma index_Ok {A} (l : list A) i x : index l i = Ok x -> l !! i = Some x.
Proof. unfold index. destruct (l !! i); [congruence | discriminate]. Qed.

Lemma cell_text_Ok cols i v :
  cell_text cols i = Ok v ->
  exists c, cols !! i = Some c /\ v = Str.strip (Soup.text c).
Proof.
  unfold cell_text, index. destruct (cols !! i) as [c |]; simpl; [| discriminate].
  intros [= <-]. eauto.
Qed.

Section ExtractorFields.

Variable lib : Libs.

Lemma extract_player_fields club base cols player :
  extract_player lib club base cols = Ok player ->
  exists cols1 cols5 name_element status_element image_element,
    cols !! 1 = Some cols1 /\ cols !! 5 = Some cols5 /\
    name_elements cols1 = Ok (name_element, status_element, image_element) /\
    player !! "name" = Some (text_or_unknown name_element) /\
    player !! "status" = Some (text_or_unknown status_element) /\
    player !! "profile_url"
    = Some (if Str.truthy (attr_or name_element "href" "")
               && negb (bool_decide (attr_or name_element "href" "" = "#"))
            then urljoin lib base (attr_or name_element "href" "")
            else Unknown) /\
    player !! "image_url" = Some (attr_or image_element "src" Unknown) /\
    player !! "nation"
    = Some (attr_or (head (Soup.find_all "img" None cols5)) "alt" Unknown) /\
    player !! "nation_code"
    = Some (get_country_code lib
              (attr_or (head (Soup.find_all "img" None cols5)) "alt" Unknown)) /\
    player !! "club" = Some club /\
    Forall (fun '(key, i) =>
              exists c, cols !! i = Some c /\
                        player !! key = Some (Str.strip (Soup.text c)))
      stat_columns.
Proof.
  unfold extract_player. intros H.
  rbind_cases H. apply Ok_inj in H. subst player.
  repeat match goal with
         | E : index _ _ = Ok _ |- _ => apply index_Ok in E
         | E : cell_text _ _ = Ok _ |- _ =>
             apply cell_text_Ok in E as (? & ? & ->)
         end.
  match goal with
  | |- context [list_to_map
                  [("name", ?v1); ("status", ?v2); ("profile_url", ?v3);
                   ("image_url", ?v4); ("nation", ?v5); ("nation_code", ?v6);
                   ("club", ?v7); ("date_of_birth", ?v8); ("appearances", ?v9);
                   ("goals", ?v10); ("assists", ?v11); ("own_goals", ?v12);
                   ("yellow_cards", ?v13); ("second_yellow", ?v14);
                   ("red_cards", ?v15); ("sub_on", ?v16); ("sub_off", ?v17);
                   ("minutes_played", ?v18)]] =>
      pose proof (listing_literal v1 v2 v3 v4 v5 v6 v7 v8 v9 v10 v11 v12 v13
                    v14 v15 v16 v17 v18) as Hlit; cbv zeta in Hlit
  end.
  destruct Hlit as (? & ? & ? & ? & ? & ? & ? & ? & ? & ? & ? & ? & ? & ? & ? & ? & ? & ?).
  eexists _, _, _, _, _.
  repeat (split; [eassumption |]).
  unfold stat_columns.
  repeat (apply Forall_cons; split; [eexists; split; eassumption |]).
  apply Forall_nil. done.
Qed.

Lemma lower_ascii_not_upper a : is_upper (Str.lower_ascii a) = false.
Proof. destruct a as [[] [] [] [] [] [] [] []]; reflexivity. Qed.

Lemma lower_no_upper s :
  all_chars (fun a => negb (is_upper a)) (Str.lower s) = true.
Proof.
  induction s as [| a s IH]; [done |].
  simpl. by rewrite lower_ascii_not_upper, IH.
Qed.

Lemma extract_rows_Forall (P : dict -> Prop) club base rows :
  (forall cols player, extract_player lib club base cols = Ok player -> P player) ->
  forall acc players,
    Forall P acc ->
    extract_rows lib club base rows acc = Ok players ->
    Forall P players.
Proof.
  intros HP. induction rows as [| row rows IH]; intros acc players Hacc H;
    cbn [extract_rows] in H.
  - by apply Ok_inj in H as <-.
  - destruct (extract_row lib club base row) as [[player | e] |] eqn:Hr;
      [| discriminate | eauto].
    eapply IH; [| exact H].
    apply Forall_app. split; [done |].
    apply Forall_cons. split; [| by apply Forall_nil].
    apply extract_row_player in Hr as [_ Hr]. symmetry in Hr. by eapply HP.
Qed.

Lemma extract_table_data_Forall (P : dict -> Prop) html base players :
  (forall cols player,
      extract_player lib (club_name_of (BeautifulSoup lib html)) base cols
      = Ok player -> P player) ->
  extract_table_data lib html base = Ok players ->
  Forall P players.
Proof.
  intros HP. rewrite extract_table_data_rows.
  by apply extract_rows_Forall.
Qed.

Lemma extract_rows_traversal club base rows :
  forall acc,
    extract_rows lib club base rows acc =
    match sequence_results (omap (extract_row lib club base) rows) with
    | Ok players => Ok (acc ++ players)
    | Raise e => Raise e
    end.
Proof.
  induction rows as [| row rows IH]; intros acc; cbn [extract_rows omap list_omap].
  - simpl. by rewrite app_nil_r.
  - destruct (extract_row lib club base row) as [[player | e] |]; simpl.
    + rewrite IH. destruct (sequence_results _); [| done].
      by rewrite <- app_assoc.
    + done.
    + apply IH.
Qed.

End ExtractorFields.

(** X2.  The country code is never in upper case: it is the lowered
    [alpha_2] code of the country, or ["unknown"] when the lookup fails.
    In every record of the extractor, [nation_code] is the code of the
    record's own [nation]. *)
Theorem nation_code_lowercase (lib : Libs) :
  (forall country_name,
      all_chars (fun a => negb (is_upper a)) (get_country_code lib country_name)
      = true) /\
  (forall html base_url players,
      extract_table_data lib html base_url = Ok players ->
      Forall (fun p : dict =>
                exists nation,
                  p !! "nation" = Some nation /\
                  p !! "nation_code" = Some (get_country_code lib nation))
        players).
Proof.
  split.
  - intros name. unfold get_country_code.
    destruct (countries_lookup lib name); [apply lower_no_upper | done].
  - intros html base players. apply extract_table_data_Forall.
    intros cols player Hp.
    apply extract_player_fields in Hp
      as (c1 & c5 & ne & se & ie & _ & _ & _ & _ & _ & _ & _ & Hn & Hc & _).
    eauto.
Qed.

(** X3.  The [profile_url] of a record is the sentinel, or the page URL
    joined with a link target that is neither empty nor the placeholder
    ["#"]. *)
Theorem profile_url_sentinel_or_resolved (lib : Libs) (html base_url : string)
    (players : list dict) :
  extract_table_data lib html base_url = Ok players ->
  Forall (fun p : dict =>
            p !! "profile_url" = Some Unknown \/
            exists href,
              href <> "" /\ href <> "#" /\
              p !! "profile_url" = Some (urljoin lib base_url href))
    players.
Proof.
  apply extract_table_data_Forall.
  intros cols player Hp.
  apply extract_player_fields in Hp
    as (c1 & c5 & ne & se & ie & _ & _ & _ & _ & _ & Hu & _).
  rewrite Hu. clear Hu.
  destruct (attr_or ne "href" "") as [| a href] eqn:Hraw; simpl; [by left |].
  case_bool_decide as Hhash; simpl; [by left |].
  right. exists (String a href). done.
Qed.

Lemma profile_url_sentinel_or_resolved_witness :
  let lib := Fixtures.site_lib Fixtures.linked_site in
  Forall (fun p : dict =>
            p !! "profile_url" = Some Unknown \/
            exists href,
              href <> "" /\ href <> "#" /\
              p !! "profile_url" = Some (urljoin lib Fixtures.p1 href))
    (records_of (extract_table_data lib Fixtures.p1 Fixtures.p1)).
Proof.
  intros lib.
  apply (profile_url_sentinel_or_resolved lib Fixtures.p1 Fixtures.p1).
  apply records_of_eta. vm_compute. reflexivity.
Defined.

(** X4.  All the records of one page carry the same [club]: the stripped
    text of the first [h1] of the page, or the sentinel when the page has
    no [h1]. *)
Theorem club_is_page_heading (lib : Libs) (html base_url : string)
    (players : list dict) :
  extract_table_data lib html base_url = Ok players ->
  exists club_name,
    Forall (fun p : dict => p !! "club" = Some club_name) players /\
    match Soup.find "h1" None (BeautifulSoup lib html) with
    | Some h1 => club_name = Soup.get_text_strip h1
    | None => club_name = Unknown
    end.
Proof.
  intros H. exists (club_name_of (BeautifulSoup lib html)). split.
  - revert H. apply extract_table_data_Forall.
    intros cols player Hp.
    by apply extract_player_fields in Hp
      as (c1 & c5 & ne & se & ie & _ & _ & _ & _ & _ & _ & _ & _ & _ & Hc & _).
  - unfold club_name_of. by destruct (Soup.find "h1" None _).
Qed.

Lemma club_is_page_heading_witness :
  let lib := Fixtures.site_lib Fixtures.linked_site in
  exists club_name,
    Forall (fun p : dict => p !! "club" = Some club_name)
      (records_of (extract_table_data lib Fixtures.p1 Fixtures.p1)) /\
    match Soup.find "h1" None (BeautifulSoup lib Fixtures.p1) with
    | Some h1 => club_name = Soup.get_text_strip h1
    | None => club_name = Unknown
    end.
Proof.
  intros lib.
  apply (club_is_page_heading lib Fixtures.p1 Fixtures.p1).
  apply records_of_eta. vm_compute. reflexivity.
Defined.

(** X5.  The eleven statistics of a record are read by position: each one
    is the stripped text of its own cell, among the cells 6 to 16 of the
    row.  When the second cell holds no [inline-table], the name, the
    status, the profile URL and the image URL are all the sentinel. *)
Theorem statistics_read_by_position (lib : Libs) (club_name base_url : string)
    (row : node) (player : dict) :
  extract_row lib club_name base_url row = Some (Ok player) ->
  let cols := Soup.find_all "td" None row in
  Forall (fun '(key, i) =>
            exists cell, cols !! i = Some cell /\
                         player !! key = Some (Str.strip (Soup.text cell)))
    stat_columns /\
  (forall name_cell,
      cols !! 1 = Some name_cell ->
      Soup.find "table" (Some "inline-table") name_cell = None ->
      player !! "name" = Some Unknown /\
      player !! "status" = Some Unknown /\
      player !! "profile_url" = Some Unknown /\
      player !! "image_url" = Some Unknown).
Proof.
  intros [_ Hp]%extract_row_player cols. symmetry in Hp.
  apply extract_player_fields in Hp
    as (c1 & c5 & ne & se & ie & H1 & _ & Hne & Hname & Hstatus & Hurl & Himg
        & _ & _ & _ & Hstats).
  split; [done |].
  intros name_cell Hcell Hnone. subst cols.
  rewrite H1 in Hcell. injection Hcell as ->.
  unfold name_elements in Hne. rewrite Hnone in Hne.
  injection Hne as <- <- <-. done.
Qed.

Lemma statistics_read_by_position_witness :
  let lib := Fixtures.site_lib [] in
  let row := Fixtures.player_row "A. Player" Fixtures.profile1 12 in
  let player := the_record (extract_row lib "FC Example" Fixtures.p1 row) in
  let cols := Soup.find_all "td" None row in
  Forall (fun '(key, i) =>
            exists cell, cols !! i = Some cell /\
                         player !! key = Some (Str.strip (Soup.text cell)))
    stat_columns /\
  (forall name_cell,
      cols !! 1 = Some name_cell ->
      Soup.find "table" (Some "inline-table") name_cell = None ->
      player !! "name" = Some Unknown /\
      player !! "status" = Some Unknown /\
      player !! "profile_url" = Some Unknown /\
      player !! "image_url" = Some Unknown).
Proof.
  intros lib row player.
  apply (statistics_read_by_position lib "FC Example" Fixtures.p1 row player).
  apply is_record_eta. vm_compute. reflexivity.
Defined.

(** X6.  The extractor is a traversal of the rows of the table body: its
    result is the records of the rows that are not skipped, in document
    order, and the first row that raises makes the whole page raise, with
    no record returned. *)
Theorem extract_table_data_is_traversal (lib : Libs) (html base_url : string) :
  extract_table_data lib html base_url
  = sequence_results
      (omap (extract_row lib (club_name_of (BeautifulSoup lib html)) base_url)
         (roster_rows (BeautifulSoup lib html))).
Proof.
  rewrite extract_table_data_rows, extract_rows_traversal.
  by destruct (sequence_results _).
Qed.

(** ** The loader and the profile parser *)

Lemma profile_literal (v1 v2 v3 v4 v5 v6 : string) :
  let d : dict :=
    list_to_map
      [("jersey_name", v1); ("full_name", v2); ("place_of_birth", v3);
       ("position", v4); ("height", v5); ("jersey_number", v6)] in
  d !! "jersey_name" = Some v1 /\ d !! "full_name" = Some v2 /\
  d !! "place_of_birth" = Some v3 /\ d !! "position" = Some v4 /\
  d !! "height" = Some v5 /\ d !! "jersey_number" = Some v6.
Proof. vm_compute. repeat split. Qed.

Section LoaderBounds.

Context {W A : Type}.

Lemma attempts_bounds k d (f : @M W A) :
  (forall w w' t r,
      f w = (w', t, r) -> fetches t = 1 /\ sleeps t = [] /\ r <> OutOfFuel) ->
  forall w w' t r,
    attempts k d f w = (w', t, r) ->
    1 <= fetches t <= S k /\
    sleeps t = replicate (fetches t - 1) d /\
    match r with
    | Returns a => exists w0 t0, f w0 = (w', t0, Returns a)
    | Raises e => fetches t = S k /\ exists e0, e = RetryError e0
    | OutOfFuel => False
    end.
Proof.
  intros Hf. induction k as [| k IH]; intros w w' t r; simpl;
    destruct (f w) as [[w1 t1] r1] eqn:Hb;
    pose proof (Hf _ _ _ _ Hb) as (Hn & Hs & Hr);
    destruct r1 as [a | e |]; try done.
  - intros [= <- <- <-]. rewrite Hn, Hs. repeat split; [lia | lia | eauto].
  - intros [= <- <- <-]. rewrite Hn, Hs. repeat split; [lia | lia | eauto].
  - intros [= <- <- <-]. rewrite Hn, Hs. repeat split; [lia | lia | eauto].
  - destruct (attempts k d f w1) as [[w2 t2] r2] eqn:Hk.
    intros [= <- <- <-]. apply IH in Hk as (Hn2 & Hs2 & Hr2).
    rewrite fetches_app, fetches_sleep, sleeps_app. simpl.
    rewrite Hn, Hs, Hs2. simpl. repeat split; [lia | lia | |].
    + replace (fetches t2 - 0) with (S (fetches t2 - 1)) by lia. done.
    + destruct r2 as [a | e2 |]; [done | | done].
      destruct Hr2 as [Hn3 He]. split; [lia | done].
Qed.

End LoaderBounds.

Lemma load_page_fetches {W} (page : Page W) url timeout w w' t r :
  load_page page url timeout w = (w', t, r) -> 1 <= fetches t <= 3.
Proof.
  intros H. unfold load_page, retry in H.
  apply attempts_bounds in H as (Hn & _);
    [| intros ? ? ? ?; apply load_page_body_trace].
  lia.
Qed.

(** X7.  Every run of the loader navigates between one and three times and
    sleeps two seconds between two navigations, never after the last.  A
    page it returns is the content after a navigation that succeeded; when
    it raises, it has navigated three times and the error is a
    [RetryError]. *)
Theorem load_page_bounds {W} (page : Page W) (url : string) (timeout : Z)
    (w w' : W) (t : list event) (r : outcome string) :
  load_page page url timeout w = (w', t, r) ->
  1 <= fetches t <= 3 /\
  sleeps t = replicate (fetches t - 1) 2%Z /\
  match r with
  | Returns html =>
      exists w0 w1,
        goto page url timeout w0 = (w1, Ok tt) /\
        content page w1 = (w', Ok html)
  | Raises e => fetches t = 3 /\ exists e0, e = RetryError e0
  | OutOfFuel => False
  end.
Proof.
  intros H. unfold load_page, retry in H.
  apply attempts_bounds in H as (Hn & Hs & Hr);
    [| intros ? ? ? ?; apply load_page_body_trace].
  repeat split; [lia | lia | done |].
  destruct r as [html | e |]; [| done | done].
  destruct Hr as (w0 & t0 & Hb).
  unfold load_page_body, bind, page_goto, page_content, ret in Hb.
  destruct (goto page url timeout w0) as [w1 [[] | e]] eqn:Hg; [| discriminate].
  destruct (content page w1) as [w2 [h | e]] eqn:Hc; [| discriminate].
  injection Hb as <- _ <-. eauto.
Qed.

Lemma load_page_bounds_witness :
  let url := "https://example.org/club" in
  let t := [EvGoto url 60000; EvSleep 2; EvGoto url 60000; EvContent] in
  1 <= fetches t <= 3 /\
  sleeps t = replicate (fetches t - 1) 2%Z /\
  exists w0 w1,
    goto (Fixtures.flaky_page 1) url 60000 w0 = (w1, Ok tt) /\
    content (Fixtures.flaky_page 1) w1 = (2, Ok "<html></html>").
Proof.
  intros url t.
  apply (load_page_bounds (Fixtures.flaky_page 1) url 60000 0 2 t
           (Returns "<html></html>")).
  reflexivity.
Defined.

Section ProfileParse.

Variable lib : Libs.

Lemma labelled_value_cases soup label :
  match Soup.find_label_next "span" label "span" value_class soup with
  | None => labelled_value soup label = Ok Unknown
  | Some None => labelled_value soup label = Raise AttributeError
  | Some (Some value) => labelled_value soup label = Ok (Soup.get_text_strip value)
  end.
Proof.
  unfold labelled_value, value_class.
  by destruct (Soup.find_label_next _ _ _ _ _) as [[] |].
Qed.

Lemma parse_profile_inv html d :
  parse_profile lib html = Ok d ->
  let soup := BeautifulSoup lib html in
  exists full_name place_of_birth position height,
    labelled_value soup "Name in home country:" = Ok full_name /\
    labelled_value soup "Place of birth:" = Ok place_of_birth /\
    labelled_value soup "Position:" = Ok position /\
    labelled_value soup "Height:" = Ok height /\
    d !! "full_name" = Some full_name /\
    d !! "place_of_birth" = Some place_of_birth /\
    d !! "position" = Some position /\
    d !! "height" = Some height /\
    d !! "jersey_name"
    = Some match Soup.find "h1" None soup with
           | Some heading_element =>
               match Soup.find "strong" None heading_element with
               | Some strong => Soup.get_text_strip strong
               | None => Unknown
               end
           | None => Unknown
           end /\
    d !! "jersey_number"
    = Some match Soup.select_one_class "data-header__shirt-number" soup with
           | Some jersey_element => Soup.get_text_strip jersey_element
           | None => Unknown
           end.
Proof.
  intros H soup. subst soup. unfold parse_profile in H.
  rbind_cases H. apply Ok_inj in H. subst d.
  match goal with
  | |- context [list_to_map
                  [("jersey_name", ?v1); ("full_name", ?v2);
                   ("place_of_birth", ?v3); ("position", ?v4);
                   ("height", ?v5); ("jersey_number", ?v6)]] =>
      pose proof (profile_literal v1 v2 v3 v4 v5 v6) as Hlit; cbv zeta in Hlit
  end.
  destruct Hlit as (? & ? & ? & ? & ? & ?).
  eexists _, _, _, _. repeat (split; [done |]). done.
Qed.

End ProfileParse.

Lemma labelled_value_Raise soup label e :
  labelled_value soup label = Raise e <->
  e = AttributeError /\
  Soup.find_label_next "span" label "span" value_class soup = Some None.
Proof.
  unfold labelled_value, value_class.
  destruct (Soup.find_label_next _ _ _ _ _) as [[] |]; split;
    try (intros [= <-]); try (intros [-> [=]]); done.
Qed.

(** X8.  A profile that parses binds exactly the six profile keys.  Each
    of the four labelled fields is the sentinel when its label is not on
    the page, and otherwise the stripped text of the first value element
    after the label; the jersey name and the jersey number are the
    sentinel when the page has no heading, or no shirt number. *)
Theorem parse_profile_fields (lib : Libs) (html : string) (d : dict) :
  parse_profile lib html = Ok d ->
  let soup := BeautifulSoup lib html in
  has_keys required_keys d /\
  (forall key, key ∉ required_keys -> d !! key = None) /\
  Forall (fun '(key, label) =>
            match Soup.find_label_next "span" label "span" value_class soup with
            | None => d !! key = Some Unknown
            | Some None => False
            | Some (Some value) => d !! key = Some (Soup.get_text_strip value)
            end) labelled_fields /\
  (Soup.find "h1" None soup = None -> d !! "jersey_name" = Some Unknown) /\
  (Soup.select_one_class "data-header__shirt-number" soup = None ->
   d !! "jersey_number" = Some Unknown).
Proof.
  intros H soup. pose proof (parse_profile_keys lib html d H) as Hkeys.
  apply parse_profile_inv in H
    as (v1 & v2 & v3 & v4 & H1 & H2 & H3 & H4 & D1 & D2 & D3 & D4 & Dn & Dj).
  fold soup in H1, H2, H3, H4, Dn, Dj.
  split; [| split; [done | split; [| split]]].
  - unfold has_keys, required_keys.
    repeat (apply Forall_cons; split; [by eexists |]). by apply Forall_nil.
  - unfold labelled_fields.
    repeat (apply Forall_cons; split;
            [ match goal with
              | |- context [Soup.find_label_next _ ?label _ _ _] =>
                  pose proof (labelled_value_cases soup label) as Hc;
                  destruct (Soup.find_label_next "span" label "span" value_class soup)
                    as [[] |]; congruence
              end |]).
    by apply Forall_nil.
  - intros Hh. by rewrite Hh in Dn.
  - intros Hs. by rewrite Hs in Dj.
Qed.

Lemma parse_profile_fields_witness :
  let lib := Fixtures.site_lib ProfileFixtures.profile_site in
  let d := the_dict (parse_profile lib Fixtures.profile1) in
  let soup := BeautifulSoup lib Fixtures.profile1 in
  has_keys required_keys d /\
  (forall key, key ∉ required_keys -> d !! key = None) /\
  Forall (fun '(key, label) =>
            match Soup.find_label_next "span" label "span" value_class soup with
            | None => d !! key = Some Unknown
            | Some None => False
            | Some (Some value) => d !! key = Some (Soup.get_text_strip value)
            end) labelled_fields /\
  (Soup.find "h1" None soup = None -> d !! "jersey_name" = Some Unknown) /\
  (Soup.select_one_class "data-header__shirt-number" soup = None ->
   d !! "jersey_number" = Some Unknown).
Proof.
  intros lib d.
  apply (parse_profile_fields lib Fixtures.profile1 d).
  apply the_dict_eta. vm_compute. reflexivity.
Defined.

(** X9.  Parsing a profile raises exactly when one of the four labels is
    on the page with no value element after it, and the error is then an
    [AttributeError]: the call of [get_text] on [None]. *)
Theorem parse_profile_raises (lib : Libs) (html : string) :
  let soup := BeautifulSoup lib html in
  (Exists (fun '(_, label) =>
             Soup.find_label_next "span" label "span" value_class soup = Some None)
     labelled_fields ->
   parse_profile lib html = Raise AttributeError) /\
  (forall e,
      parse_profile lib html = Raise e ->
      e = AttributeError /\
      Exists (fun '(_, label) =>
                Soup.find_label_next "span" label "span" value_class soup
                = Some None)
        labelled_fields).
Proof.
  intros soup. unfold parse_profile. fold soup. unfold labelled_fields.
  destruct (labelled_value soup "Name in home country:") as [v1 | e1] eqn:E1;
    cbn [rbind];
    [destruct (labelled_value soup "Place of birth:") as [v2 | e2] eqn:E2;
     cbn [rbind];
     [destruct (labelled_value soup "Position:") as [v3 | e3] eqn:E3;
      cbn [rbind];
      [destruct (labelled_value soup "Height:") as [v4 | e4] eqn:E4;
       cbn [rbind] |] |] |].
  all: repeat match goal with
         | E : labelled_value _ _ = Raise _ |- _ =>
             apply labelled_value_Raise in E as [-> E]
         end.
  all: split;
    [ intros Hex; try done
    | intros e He;
      first [ discriminate He | injection He as <-; split; [done |] ] ].
  - repeat (apply Exists_cons in Hex as [Hex | Hex];
            [ match goal with
              | E : labelled_value soup ?l = Ok _ |- _ =>
                  assert (labelled_value soup l = Raise AttributeError)
                    by (by apply labelled_value_Raise); congruence
              end |]).
    by apply Exists_nil in Hex.
  - do 3 apply Exists_cons_tl. by apply Exists_cons_hd.
  - do 2 apply Exists_cons_tl. by apply Exists_cons_hd.
  - do 1 apply Exists_cons_tl. by apply Exists_cons_hd.
  - by apply Exists_cons_hd.
Qed.

(** X10.  The retry of the profile scraper also covers parsing.  A profile
    page that loads at once and does not parse is loaded three times, two
    seconds apart, before the error is given up as a [RetryError]. *)
Theorem malformed_profile_refetched {W} (lib : Libs) (page : Page W)
    (profile_url : string) (e : exn) :
  profile_url <> Unknown ->
  (forall w, exists w' t html,
      load_page_body page profile_url default_timeout w = (w', t, Returns html) /\
      parse_profile lib html = Raise e) ->
  forall w, exists w' t,
      scrape_profile_data lib page profile_url w
      = (w', t, Raises (RetryError e)) /\
      fetches t = 3 /\ sleeps t = [2; 2]%Z.
Proof.
  intros Hne Hpage w.
  destruct (attempts_all_fail (fun e' => e' = e) 1 0 2%Z
              (scrape_profile_data_body lib page profile_url))
    with (k := 2) (w := w) as (w' & t & e' & H & -> & Hn & Hm).
  - intros w0. destruct (Hpage w0) as (w1 & t1 & html & Hb & Hp).
    exists w1, (t1 ++ []), e.
    unfold scrape_profile_data_body, bind, load_page, retry.
    rewrite bool_decide_eq_false_2 by done.
    rewrite (attempts_returns _ _ _ _ _ _ _ Hb), Hp. simpl.
    apply load_page_body_trace in Hb as (Hf & Hs & _).
    rewrite app_nil_r. by repeat split.
  - exists w', t. by repeat split.
Qed.

Lemma malformed_profile_refetched_witness :
  exists w' t,
    scrape_profile_data (Fixtures.site_lib ProfileFixtures.malformed_site)
      (Fixtures.site_page [Fixtures.profile1]) Fixtures.profile1 "about:blank"
    = (w', t, Raises (RetryError AttributeError)) /\
    fetches t = 3 /\ sleeps t = [2; 2]%Z.
Proof.
  apply (malformed_profile_refetched
           (Fixtures.site_lib ProfileFixtures.malformed_site)
           (Fixtures.site_page [Fixtures.profile1]) Fixtures.profile1
           AttributeError).
  - discriminate.
  - intros w. eexists _, _, _. split; reflexivity.
Defined.

(** ** The walker and the two loops of the orchestrator *)

Section WalkerChain.

Context {W : Type}.
Variable lib : Libs.
Variable page : Page W.

Lemma pagination_loop_chain fuel :
  forall urls current w w' t urls' r,
    pagination_loop lib fuel page urls current w = (w', t, urls', r) ->
    exists more,
      urls' = urls ++ more /\
      chained lib page current more /\
      (r <> OutOfFuel ->
       length more + 1 <= fetches t <= 3 * (length more + 1)).
Proof.
  induction fuel as [| fuel IH]; intros urls current w w' t urls' r.
  - intros [= <- <- <- <-]. exists []. rewrite app_nil_r. by repeat split.
  - rewrite pagination_loop_step.
    destruct (load_page page current default_timeout w) as [[w1 t1] [html | e |]]
      eqn:Hload.
    + pose proof (load_page_fetches _ _ _ _ _ _ _ Hload) as Hn.
      destruct (next_page_url lib html current) as [next_url |] eqn:Hnext.
      * case_bool_decide as Hin.
        -- intros [= <- <- <- <-]. exists []. rewrite app_nil_r.
           repeat split; simpl; lia.
        -- destruct (pagination_loop lib fuel page (urls ++ [next_url]) next_url w1)
             as [[[w2 t2] urls2] r2] eqn:Hloop.
           intros [= <- <- <- <-].
           apply IH in Hloop as (more & -> & Hchain & Hbound).
           exists (next_url :: more). rewrite <- app_assoc.
           split; [done |]. split.
           ++ split; [| done]. by exists w, w1, t1, html.
           ++ intros Hr. specialize (Hbound Hr).
              rewrite fetches_app. simpl. lia.
      * intros [= <- <- <- <-]. exists []. rewrite app_nil_r.
        repeat split; simpl; lia.
    + pose proof (load_page_fetches _ _ _ _ _ _ _ Hload) as Hn.
      intros [= <- <- <- <-]. exists []. rewrite app_nil_r.
      repeat split; simpl; lia.
    + by apply load_page_not_out_of_fuel in Hload.
Qed.

Lemma enrich_player_updated player w w' t player' :
  enrich_player lib page player w = (w', t, Returns player') ->
  updated player player'.
Proof.
  unfold enrich_player.
  destruct (player !! "profile_url") as [profile_url |] eqn:Hurl;
    [| by intros [= <- <- <-]].
  case_bool_decide as Hunknown; simpl.
  - intros [= <- <- <-]. exists default_profile.
    split; [done |]. split; [apply default_profile_keys | done].
  - unfold bind.
    destruct (scrape_profile_data lib page profile_url w)
      as [[w1 t1] [d | e |]] eqn:Hscrape; [| done | done].
    intros [= <- <- <-]. exists d. split; [done |].
    split; [by eapply scrape_profile_data_keys |].
    intros Hu. congruence.
Qed.

End WalkerChain.

(** X11.  The list the walker returns starts with the base URL, and each
    further URL is the next link of a page loaded from the URL before it.
    The walker navigates at least once and at most three times per URL of
    the list. *)
Theorem pagination_urls_form_a_chain {W} (lib : Libs) (page : Page W)
    (fuel : nat) (base_url : string) (w w' : W) (t : list event)
    (urls : list string) :
  get_pagination_urls lib fuel page base_url w = (w', t, Returns urls) ->
  exists more,
    urls = base_url :: more /\
    chained lib page base_url more /\
    length urls <= fetches t <= 3 * length urls.
Proof.
  unfold get_pagination_urls.
  destruct (pagination_loop lib fuel page [base_url] base_url w)
    as [[[w1 t1] urls1] r1] eqn:Hloop.
  apply pagination_loop_chain in Hloop as (more & -> & Hchain & Hbound).
  destruct r1 as [[] | e |]; intros [= <- <- <-]; exists more;
    (split; [done |]; split; [done |]);
    simpl; specialize (Hbound ltac:(done)); lia.
Qed.

Lemma pagination_urls_form_a_chain_witness :
  let run :=
    get_pagination_urls (Fixtures.site_lib Fixtures.chain_site) 10
      (Fixtures.site_page [Fixtures.p1; Fixtures.p2; Fixtures.p3])
      Fixtures.p1 "about:blank" in
  exists more,
    returned run.2 = Fixtures.p1 :: more /\
    chained (Fixtures.site_lib Fixtures.chain_site)
      (Fixtures.site_page [Fixtures.p1; Fixtures.p2; Fixtures.p3])
      Fixtures.p1 more /\
    length (returned run.2) <= fetches run.1.2 <= 3 * length (returned run.2).
Proof.
  intros run.
  apply (pagination_urls_form_a_chain _ _ 10 Fixtures.p1 "about:blank"
           run.1.1 run.1.2 (returned run.2)).
  apply returned_eta. vm_compute. reflexivity.
Defined.

(** The first loop of the orchestrator: the records of the pages, page
    after page, up to the first page that fails. *)
Lemma listing_loop_pages {W} (lib : Libs) (page : Page W)
    (urls_to_scrape : list string) (all_data : list dict) (w w' : W)
    (t : list event) (all_data' : list dict) (r : outcome unit) :
  listing_loop lib page urls_to_scrape all_data w = (w', t, all_data', r) ->
  exists pages : list (list dict),
    all_data' = all_data ++ concat pages /\
    Forall2 (page_records lib page) (take (length pages) urls_to_scrape) pages /\
    match r with
    | Returns _ => length pages = length urls_to_scrape
    | Raises _ => length pages < length urls_to_scrape
    | OutOfFuel => False
    end.
Proof.
  revert all_data w w' t all_data' r.
  induction urls_to_scrape as [| page_url rest IH];
    intros all_data w w' t all_data' r; simpl.
  - intros [= <- <- <- <-]. exists []. simpl. rewrite app_nil_r.
    repeat split. constructor.
  - destruct (load_page page page_url default_timeout w)
      as [[w1 t1] [html | e |]] eqn:Hload.
    + destruct (extract_table_data lib html page_url) as [data | e] eqn:Hdata.
      * destruct (listing_loop lib page rest (all_data ++ data) w1)
          as [[[w2 t2] all_data2] r2] eqn:Hl.
        intros [= <- <- <- <-].
        apply IH in Hl as (pages & -> & Hpages & Hr).
        exists (data :: pages). simpl. rewrite <- app_assoc.
        split; [done |]. split.
        -- constructor; [| done]. by exists w, w1, t1, html.
        -- destruct r2; [lia | lia | done].
      * intros [= <- <- <- <-]. exists []. simpl. rewrite app_nil_r.
        repeat split; [constructor | lia].
    + intros [= <- <- <- <-]. exists []. simpl. rewrite app_nil_r.
      repeat split; [constructor | lia].
    + by apply load_page_not_out_of_fuel in Hload.
Qed.

(** The second loop: the players before the first failure are updated,
    the others are as they were. *)
Lemma enrich_loop_prefix {W} (lib : Libs) (page : Page W)
    (players : list dict) (w w' : W) (t : list event) (players' : list dict)
    (r : outcome unit) :
  enrich_loop lib page players w = (w', t, players', r) ->
  exists k,
    Forall2 updated (take k players) (take k players') /\
    drop k players' = drop k players /\
    length players' = length players /\
    match r with
    | Returns _ => k = length players
    | Raises _ => k < length players
    | OutOfFuel => False
    end.
Proof.
  revert w w' t players' r.
  induction players as [| player rest IH]; intros w w' t players' r; simpl.
  - intros [= <- <- <- <-]. exists 0. repeat split. constructor.
  - destruct (enrich_player lib page player w) as [[w1 t1] r1] eqn:Hp.
    destruct r1 as [player' | e |].
    + apply enrich_player_updated in Hp.
      destruct (enrich_loop lib page rest w1) as [[[w2 t2] rest'] r2] eqn:Hl.
      intros [= <- <- <- <-]. apply IH in Hl as (k & Hk & Hdrop & Hlen & Hr).
      exists (S k). simpl. repeat split; [by constructor | done | lia |].
      destruct r2; [lia | lia | done].
    + intros [= <- <- <- <-]. exists 0. simpl.
      repeat split; [constructor | lia].
    + by apply enrich_player_inv in Hp.
Qed.

(** X12.  Players whose profile URL is the sentinel cost no navigation:
    the second loop of the orchestrator gives each of them the default
    profile, leaves the browser as it was and does nothing else. *)
Theorem sentinel_players_cost_no_fetch {W} (lib : Libs) (page : Page W)
    (players : list dict) (w : W) :
  Forall (fun p : dict => p !! "profile_url" = Some Unknown) players ->
  enrich_loop lib page players w
  = (w, [], map (fun p => update p default_profile) players, Returns tt).
Proof.
  induction players as [| player rest IH]; intros Hall; simpl; [done |].
  apply Forall_cons in Hall as [Hp Hall].
  unfold enrich_player at 1. rewrite Hp. simpl.
  by rewrite (IH Hall).
Qed.

Lemma sentinel_players_cost_no_fetch_witness :
  let player : dict := {[ "profile_url" := Unknown ]} in
  enrich_loop (Fixtures.site_lib []) (Fixtures.flaky_page 0) [player] 0
  = (0, [], map (fun p => update p default_profile) [player], Returns tt).
Proof.
  intros player.
  apply (sentinel_players_cost_no_fetch (Fixtures.site_lib [])
           (Fixtures.flaky_page 0) [player] 0).
  repeat constructor.
Defined.

(** X13.  What the orchestrator returns is the records of the listing
    pages, in the order of the pages and of their rows, taken from the
    pages before the first one that failed.  A prefix of them is updated
    with profiles and the rest is as the extractor left it; when a listing
    page failed, none is updated. *)
Theorem scrape_page_output_order {W} (lib : Libs) (page : Page W) (fuel : nat)
    (url : string) (use_pagination : bool) (w w' : W) (t : list event)
    (data : list dict) :
  scrape_page lib fuel page url use_pagination w = (w', t, Returns data) ->
  exists (urls : list string) (pages : list (list dict)) (k : nat),
    (if use_pagination
     then exists w1 t1,
         get_pagination_urls lib fuel page url w = (w1, t1, Returns urls)
     else urls = [url]) /\
    Forall2 (page_records lib page) (take (length pages) urls) pages /\
    length data = length (concat pages) /\
    Forall2 updated (take k (concat pages)) (take k data) /\
    drop k data = drop k (concat pages) /\
    (length pages < length urls -> k = 0).
Proof.
  unfold scrape_page, scrape_page_try.
  destruct ((if use_pagination then get_pagination_urls lib fuel page url
             else ret [url]) w) as [[w1 t1] [urls | e |]] eqn:Hurls;
    [| | done].
  - destruct (listing_loop lib page urls [] w1)
      as [[[w2 t2] listed] r2] eqn:Hl.
    apply listing_loop_pages in Hl as (pages & -> & Hpages & Hr2).
    simpl in *.
    assert (if use_pagination
            then exists w1 t1,
                get_pagination_urls lib fuel page url w = (w1, t1, Returns urls)
            else urls = [url]) as Hu.
    { destruct use_pagination; [eauto |]. by injection Hurls as _ _ <-. }
    destruct r2 as [[] | e |]; [| | done].
    + destruct (enrich_loop lib page (concat pages) w2)
        as [[[w3 t3] enriched] r3] eqn:He.
      apply enrich_loop_prefix in He
        as (k & Hk & Hdrop & Hlen & Hr3).
      destruct r3; [| | done]; intros [= <- <- <-];
        exists urls, pages, k; repeat split; try done; lia.
    + intros [= <- <- <-]. exists urls, pages, 0.
      repeat split; try done; simpl; constructor.
  - destruct use_pagination; [| discriminate].
    unfold get_pagination_urls in Hurls.
    by destruct (pagination_loop lib fuel page [url] url w) as [[[? ?] ?] []].
Qed.

Lemma scrape_page_output_order_witness :
  let lib := Fixtures.site_lib Fixtures.placeholder_site in
  let page := Fixtures.site_page [Fixtures.p1] in
  let run := scrape_page lib 0 page Fixtures.p1 false "about:blank" in
  let data := returned run.2 in
  exists (urls : list string) (pages : list (list dict)) (k : nat),
    urls = [Fixtures.p1] /\
    Forall2 (page_records lib page) (take (length pages) urls) pages /\
    length data = length (concat pages) /\
    Forall2 updated (take k (concat pages)) (take k data) /\
    drop k data = drop k (concat pages) /\
    (length pages < length urls -> k = 0).
Proof.
  intros lib page run data.
  apply (scrape_page_output_order lib page 0 Fixtures.p1 false "about:blank"
           run.1.1 run.1.2 data).
  apply returned_eta. vm_compute. reflexivity.
Defined.

(** ** The sink, the file name and the backfill *)









Lemma lower_ascii_idem a : Str.lower_ascii (Str.lower_ascii a) = Str.lower_ascii a.
Proof. destruct a as [[] [] [] [] [] [] [] []]; reflexivity. Qed.





Lemma backfill_other (p : dict) key :
  key ∉ required_keys -> backfill p !! key = p !! key.
Proof.
  unfold backfill. generalize required_keys. intros keys. revert p.
  induction keys as [| k keys IH]; intros p Hkey; simpl; [done |].
  apply not_elem_of_cons in Hkey as [Hne Hkey].
  rewrite IH by done. by apply backfill_key_other.
Qed.

(** X18.  The backfill binds each of the six profile keys that a record
    lacks to the sentinel and changes nothing else: no key of the record
    is overwritten, and a second backfill changes nothing. *)
Theorem backfill_spec (p : dict) :
  (forall key,
      backfill p !! key
      = if bool_decide (key ∈ required_keys)
        then Some (default Unknown (p !! key))
        else p !! key) /\
  backfill (backfill p) = backfill p /\
  (forall key v, p !! key = Some v -> backfill p !! key = Some v).
Proof.
  assert (forall (q : dict) key,
             backfill q !! key
             = if bool_decide (key ∈ required_keys)
               then Some (default Unknown (q !! key))
               else q !! key) as Hlookup.
  { intros q key. case_bool_decide.
    - by apply backfill_fills.
    - by apply backfill_other. }
  split; [apply Hlookup |]. split; [| apply backfill_preserves].
  apply map_eq. intros key. rewrite (Hlookup (backfill p)), (Hlookup p).
  by case_bool_decide.
Qed.

(** ** The runner *)

Lemma rstrip_idem s : Str.rstrip (Str.rstrip s) = Str.rstrip s.
Proof.
  induction s as [| a r IH]; [done |]. simpl.
  destruct (Str.rstrip r) as [| b r'] eqn:Hr.
  - destruct (Str.isspace a) eqn:Ha; simpl; [done |]. by rewrite Ha.
  - simpl. simpl in IH. by rewrite IH.
Qed.

Lemma lstrip_head s :
  match Str.lstrip s with
  | EmptyString => True
  | String a _ => Str.isspace a = false
  end.
Proof.
  induction s as [| a r IH]; [done |]. simpl.
  destruct (Str.isspace a) eqn:Ha; [done | by rewrite Ha].
Qed.

Lemma lstrip_rstrip_clean t :
  match t with
  | EmptyString => True
  | String a _ => Str.isspace a = false
  end ->
  Str.lstrip (Str.rstrip t) = Str.rstrip t.
Proof.
  destruct t as [| a r]; [done |]. intros Ha. simpl.
  destruct (Str.rstrip r); rewrite ?Ha; simpl; by rewrite Ha.
Qed.

Lemma strip_idem s : Str.strip (Str.strip s) = Str.strip s.
Proof.
  unfold Str.strip.
  rewrite (lstrip_rstrip_clean (Str.lstrip s)) by apply lstrip_head.
  apply rstrip_idem.
Qed.

(** X19.  The URLs read from the input file are the stripped lines that
    are not blank, in the order of the file: no URL is empty, none has
    white space around it, and every line with something on it gives its
    URL. *)
Theorem read_urls_spec (lines : list string) :
  read_urls lines = List.filter Str.truthy (map Str.strip lines) /\
  Forall (fun url => url <> "" /\ Str.strip url = url) (read_urls lines) /\
  (forall line, line ∈ lines -> Str.strip line <> "" ->
                Str.strip line ∈ read_urls lines) /\
  length (read_urls lines) <= length lines.
Proof.
  assert (read_urls lines = List.filter Str.truthy (map Str.strip lines)) as Heq.
  { unfold read_urls. induction lines as [| line lines IH]; [done |].
    simpl. destruct (Str.truthy (Str.strip line)); simpl; by rewrite IH. }
  split; [done |]. rewrite Heq. split; [| split].
  - apply Forall_forall. intros url Hin.
    apply list_elem_of_In, filter_In in Hin as [Hin Ht].
    apply in_map_iff in Hin as (line & <- & _).
    split; [by destruct (Str.strip line) | apply strip_idem].
  - intros line Hin Hne. apply list_elem_of_In, filter_In. split.
    + apply in_map. by apply list_elem_of_In.
    + by destruct (Str.strip line).
  - etransitivity; [apply filter_length_le |]. by rewrite length_map.
Qed.

Section RunnerFacts.

Context {W : Type}.
Variable lib : Libs.
Variable page : Page W.







End RunnerFacts.



